(** * Delaunay triangulation (Bowyer-Watson): a shallow embedding of
    [geometry.cpp] and [delaunay.cpp].

    C++ [double] is IEEE 754 binary64 with round to nearest even, each
    operation rounded once (no extended precision, no fused multiply-add):
    Rocq's primitive [float], whose operations are specified by [SpecFloat].
    Every function below follows the source line by line; [std::vector] is
    [list], the loops are folds, filters and maps in the iteration order of
    the source. *)

From Stdlib Require Import Floats ZArith List Bool Lia.
Import ListNotations.

Local Open Scope float_scope.
Local Open Scope bool_scope.

(** ** geometry.h / geometry.cpp *)

(** [std::numeric_limits<double>::epsilon()], i.e. 2^-52. *)
Definition epsilon : float := 0x1p-52.

(** [std::numeric_limits<double>::infinity()]. *)
Definition inf : float := infinity.

(** C++ [a != b] on doubles. *)
Definition neqb (a b : float) : bool := negb (a =? b).

(** C++ [a > b] and [a >= b] on doubles. *)
Definition gtb (a b : float) : bool := b <? a.
Definition geb (a b : float) : bool := b <=? a.

(** [std::min(a, b)] is [(b < a) ? b : a]. *)
Definition fmin (a b : float) : float := if b <? a then b else a.

Record point : Set := mkpoint { x : float; y : float }.

(** [point::point()] *)
Definition point0 : point := mkpoint 0 0.

(** [point::operator==] *)
Definition point_eq (p other : point) : bool :=
  if (x p =? x other) && (y p =? y other) then true
  else (abs (x p - x other) <=? epsilon) && (abs (y p - y other) <=? epsilon).

(** [point::finite] *)
Definition finite (p : point) : bool :=
  neqb (abs (x p)) inf && neqb (abs (y p)) inf.

(** [point::slope] *)
Definition slope (a b : point) : float :=
  if x a - x b =? 0 then inf else (y a - y b) / (x a - x b).

(** [point::midpoint] *)
Definition midpoint (a b : point) : point :=
  mkpoint ((x a + x b) / 2) ((y a + y b) / 2).

(** [point::distance_squared] *)
Definition distance_squared (p a : point) : float :=
  let dx := x p - x a in
  let dy := y p - y a in
  dx * dx + dy * dy.

Record edge : Set := mkedge { ea : point; eb : point }.

Record circle : Set := mkcircle { center : point; radius : float }.

(** [circle::contains] *)
Definition contains (c : circle) (p : point) : bool :=
  let dx := x p - x (center c) in
  let dy := y p - y (center c) in
  let dist := dx * dx + dy * dy in
  dist <? radius c.

(** [circle::infinite] *)
Definition infinite (c : circle) : bool := radius c =? inf.

Record triangle : Set := mktriangle { ta : point; tb : point; tc : point }.

(** The signed area computed by [triangle::valid]. *)
Definition area (t : triangle) : float :=
  ((x (tb t) - x (ta t)) * (y (tc t) - y (ta t))
   - (x (tc t) - x (ta t)) * (y (tb t) - y (ta t))) / 2.

(** [triangle::valid] *)
Definition valid (t : triangle) : bool :=
  if negb (finite (ta t)) || negb (finite (tb t)) || negb (finite (tc t))
  then false
  else gtb (abs (area t)) epsilon.

(** [triangle::has_vertex] *)
Definition has_vertex (t : triangle) (p : point) : bool :=
  point_eq (ta t) p || point_eq (tb t) p || point_eq (tc t) p.

(** The circle returned by [triangle::circumcircle] for an invalid triangle. *)
Definition sentinel : circle := mkcircle (mkpoint 0 0) inf.

(** The circumcenter computed by [triangle::circumcircle] on its valid path. *)
Definition circumcenter (t : triangle) : point :=
  let a := ta t in
  let b := tb t in
  let c := tc t in
  let slope_ab := slope a b in
  let slope_bc := slope b c in
  let slope_ac := slope a c in
  let '(midpoint_1, slope_1, midpoint_2, slope_2) :=
    if slope_ab =? 0 then (midpoint a c, slope_ac, midpoint b c, slope_bc)
    else if slope_bc =? 0 then (midpoint a b, slope_ab, midpoint a c, slope_ac)
    else (midpoint a b, slope_ab, midpoint b c, slope_bc) in
  let m1 := (-1) / slope_1 in
  let m2 := (-1) / slope_2 in
  let b1 := y midpoint_1 - m1 * x midpoint_1 in
  let b2 := y midpoint_2 - m2 * x midpoint_2 in
  let cx := (b2 - b1) / (m1 - m2) in
  let cy := m1 * cx + b1 in
  mkpoint cx cy.

(** [triangle::circumcircle] *)
Definition circumcircle (t : triangle) : circle :=
  if negb (valid t) then sentinel
  else
    let center := circumcenter t in
    let radius :=
      fmin (fmin (distance_squared (ta t) center)
                 (distance_squared (tb t) center))
           (distance_squared (tc t) center) in
    mkcircle center radius.

(** [triangle::edges] *)
Definition edges (t : triangle) : list edge :=
  [mkedge (ta t) (tb t); mkedge (tb t) (tc t); mkedge (ta t) (tc t)].

(** [triangle::has_edge]: the loop returns at the first undirected match. *)
Definition has_edge (t : triangle) (e : edge) : bool :=
  existsb (fun v =>
             (point_eq (ea v) (ea e) && point_eq (eb v) (eb e))
             || (point_eq (ea v) (eb e) && point_eq (eb v) (ea e)))
          (edges t).

(** [triangle::operator==] *)
Definition triangle_eq (t other : triangle) : bool :=
  point_eq (ta t) (ta other) && point_eq (tb t) (tb other)
  && point_eq (tc t) (tc other).

(** ** delaunay.cpp *)

Definition super_a : point := mkpoint neg_infinity neg_infinity.
Definition super_b : point := mkpoint 0 inf.
Definition super_c : point := mkpoint inf 0.

(** [delaunay::super_triangle] *)
Definition super_triangle : triangle := mktriangle super_a super_b super_c.

(** C++ [bool] promoted to [int] in [t.a.finite() + t.b.finite() + t.c.finite()]. *)
Definition b2n (b : bool) : nat := if b then 1%nat else 0%nat.

(** [delaunay::halfplane_contains] *)
Definition halfplane_contains (t : triangle) (p : point) : bool :=
  let finite_points :=
    (b2n (finite (ta t)) + b2n (finite (tb t)) + b2n (finite (tc t)))%nat in
  if Nat.eqb finite_points 0 then true
  else if Nat.eqb finite_points 1 then
    let '(f, v1, v2) :=
      if finite (ta t) then (ta t, tb t, tc t)
      else if finite (tb t) then (tb t, ta t, tc t)
      else if finite (tc t) then (tc t, ta t, tb t)
      else (point0, point0, point0) in
    if (y v1 =? inf) || (y v2 =? inf) then
      if (x v1 =? inf) || (x v2 =? inf) then
        let b := y f + x f in
        gtb (y p + x p) b
      else
        let b := y f - 3 * x f in
        gtb (y p - 3 * x p) b
    else
      let b := y f - x f / 3 in
      y p - x p / 3 <? b
  else if Nat.eqb finite_points 2 then
    let '(f, v1, v2) :=
      if negb (finite (ta t)) then (ta t, tb t, tc t)
      else if negb (finite (tb t)) then (tb t, ta t, tc t)
      else if negb (finite (tc t)) then (tc t, tb t, ta t)
      else (point0, point0, point0) in
    let m := slope v1 v2 in
    let b := y v1 - m * x v1 in
    if y f =? inf then gtb (y p - m * x p) b
    else if x f =? inf then
      if geb m 0 then y p - m * x p <? b
      else gtb (y p - m * x p) b
    else
      if geb m 1 then gtb (y p - m * x p) b
      else y p - m * x p <? b
  else false.

(** The test of the first inner loop of [triangulate]: is [t] invalidated
    by the insertion of [p]? *)
Definition is_bad (p : point) (t : triangle) : bool :=
  let cc := circumcircle t in
  if negb (infinite cc) then contains cc p else halfplane_contains t p.

(** The elements of a vector paired with their indices. *)
Fixpoint indexed_from {A : Type} (i : nat) (l : list A) : list (nat * A) :=
  match l with
  | [] => []
  | a :: l' => (i, a) :: indexed_from (S i) l'
  end.

Definition indexed {A : Type} (l : list A) : list (nat * A) := indexed_from 0 l.

(** The loop over [j] in the boundary extraction: is [e] an edge of some
    flagged triangle other than the [i]-th? *)
Definition shared_edge (bad_set : list triangle) (i : nat) (e : edge) : bool :=
  existsb (fun jt => negb (Nat.eqb i (fst jt)) && has_edge (snd jt) e)
          (indexed bad_set).

(** The boundary polygon: edges of flagged triangles not shared with any other
    flagged triangle, in the order the source pushes them. *)
Definition polygon_of (bad_set : list triangle) : list edge :=
  flat_map (fun it => filter (fun e => negb (shared_edge bad_set (fst it) e))
                             (edges (snd it)))
           (indexed bad_set).

(** The predicate of the first [remove_if]: [std::find] compares each element
    of [bad_set] with [t] through [triangle::operator==]. *)
Definition in_bad_set (bad_set : list triangle) (t : triangle) : bool :=
  existsb (fun b => triangle_eq b t) bad_set.

(** The body of the loop over the input points. *)
Definition insert_point (triangulation : list triangle) (p : point)
  : list triangle :=
  let bad_set := filter (is_bad p) triangulation in
  let polygon := polygon_of bad_set in
  let kept := filter (fun t => negb (in_bad_set bad_set t)) triangulation in
  kept ++ map (fun e => mktriangle (ea e) (eb e) p) polygon.

(** The predicate of the final [remove_if]. *)
Definition touches_super (t : triangle) : bool :=
  has_vertex t (ta super_triangle)
  || has_vertex t (tb super_triangle)
  || has_vertex t (tc super_triangle).

(** [delaunay::triangulate] *)
Definition triangulate (points : list point) : list triangle :=
  let triangulation := fold_left insert_point points [super_triangle] in
  filter (fun t => negb (touches_super t)) triangulation.

(** ** The check of the repository's tests *)

(** [valid_triangulation] of the test file: [false] as soon as the
    circumcircle of a returned triangle contains an input point. *)
Definition valid_triangulation (points : list point) : bool :=
  forallb (fun t =>
             let cc := circumcircle t in
             forallb (fun p => negb (contains cc p)) points)
          (triangulate points).

(** ** Vocabulary of the statements *)

(** The three vertices of a triangle, in stored order. *)
Definition vertices (t : triangle) : list point := [ta t; tb t; tc t].

(** Every vertex of every triangle of [l] satisfies [P]. *)
Definition all_vertices (P : point -> Prop) (l : list triangle) : Prop :=
  forall t, In t l -> forall v, In v (vertices t) -> P v.

(** [v] is one of the three symbolic vertices of the super-triangle. *)
Definition symbolic (v : point) : Prop :=
  v = super_a \/ v = super_b \/ v = super_c.

(** [v == s] for one of the three vertices [s] of the super-triangle. *)
Definition touch (v : point) : bool :=
  point_eq v super_a || point_eq v super_b || point_eq v super_c.

(** The number of stored vertices of [t] that equal a super-triangle vertex. *)
Definition nsup (t : triangle) : nat :=
  (b2n (touch (ta t)) + b2n (touch (tb t)) + b2n (touch (tc t)))%nat.

(** [t] stores the three points [u], [v], [w] in some order. *)
Definition arrangement (t : triangle) (u v w : point) : Prop :=
  t = mktriangle u v w \/ t = mktriangle u w v \/ t = mktriangle v u w
  \/ t = mktriangle v w u \/ t = mktriangle w u v \/ t = mktriangle w v u.

(** [t] has the single infinite vertex [f]; [v1] and [v2] are its two finite
    vertices as [halfplane_contains] names them: [(b, c)] when [f] is stored
    in [a], [(a, c)] when it is stored in [b], [(b, a)] when it is stored
    in [c]. *)
Definition around (t : triangle) (f v1 v2 : point) : Prop :=
  t = mktriangle f v1 v2 \/ t = mktriangle v1 f v2 \/ t = mktriangle v2 v1 f.

(** The case analysis of the half-plane test as the specification words it
    (section 4.2): [halfplane_case p t r] says that the specification gives
    the answer [r] for the triangle [t] and the query point [p].  The cases
    are: no finite vertex; one finite vertex [f] and one of the three pairs
    of symbolic vertices; two finite vertices and one symbolic vertex; and,
    as the unmatched case, three finite vertices. *)
Inductive halfplane_case (p : point) : triangle -> bool -> Prop :=
| case_no_finite (u v w : point) :
    symbolic u -> symbolic v -> symbolic w ->
    halfplane_case p (mktriangle u v w) true
| case_one_finite_bc (f : point) (t : triangle) :
    finite f = true -> arrangement t f super_b super_c ->
    halfplane_case p t (gtb (y p + x p) (y f + x f))
| case_one_finite_ba (f : point) (t : triangle) :
    finite f = true -> arrangement t f super_b super_a ->
    halfplane_case p t (gtb (y p - 3 * x p) (y f - 3 * x f))
| case_one_finite_ac (f : point) (t : triangle) :
    finite f = true -> arrangement t f super_a super_c ->
    halfplane_case p t (y p - x p / 3 <? y f - x f / 3)
| case_two_finite_b (v1 v2 : point) (t : triangle) :
    finite v1 = true -> finite v2 = true -> around t super_b v1 v2 ->
    let m := slope v1 v2 in
    let b := y v1 - m * x v1 in
    halfplane_case p t (gtb (y p - m * x p) b)
| case_two_finite_c (v1 v2 : point) (t : triangle) :
    finite v1 = true -> finite v2 = true -> around t super_c v1 v2 ->
    let m := slope v1 v2 in
    let b := y v1 - m * x v1 in
    halfplane_case p t
      ((geb m 0 && (y p - m * x p <? b)) || ((m <? 0) && gtb (y p - m * x p) b))
| case_two_finite_a (v1 v2 : point) (t : triangle) :
    finite v1 = true -> finite v2 = true -> around t super_a v1 v2 ->
    let m := slope v1 v2 in
    let b := y v1 - m * x v1 in
    halfplane_case p t
      ((geb m 1 && gtb (y p - m * x p) b) || ((m <? 1) && (y p - m * x p <? b)))
| case_all_finite (t : triangle) :
    finite (ta t) = true -> finite (tb t) = true -> finite (tc t) = true ->
    halfplane_case p t false.

(** [p] has no NaN coordinate. *)
Definition no_nan (p : point) : bool :=
  negb (is_nan (x p)) && negb (is_nan (y p)).

(** The three stored vertices of [t] are finite. *)
Definition all_finite (t : triangle) : bool :=
  finite (ta t) && finite (tb t) && finite (tc t).

(** [t] was created by the insertion of its third vertex: the points
    inserted so far are [l1 ++ tc t :: l2], and the first two vertices of
    [t] are symbolic or among the points [l1] inserted before. *)
Definition inserted_last (done : list point) (t : triangle) : Prop :=
  exists l1 l2,
    done = l1 ++ tc t :: l2
    /\ (symbolic (ta t) \/ In (ta t) l1)
    /\ (symbolic (tb t) \/ In (tb t) l1).

(** The triangles met during a run: the super-triangle, or a triangle
    created by an insertion. *)
Definition created (done : list point) (t : triangle) : Prop :=
  (symbolic (ta t) /\ symbolic (tb t) /\ symbolic (tc t)) \/ inserted_last done t.

(** A binary64 value that is not negative: NaN, or a value with a clear
    sign bit. *)
Definition SFnonneg (u : spec_float) : bool :=
  match u with
  | S754_nan => true
  | S754_zero s | S754_infinity s | S754_finite s _ _ => negb s
  end.

(** A binary64 value that is a zero or NaN. *)
Definition SFzn (u : spec_float) : bool :=
  match u with
  | S754_zero _ | S754_nan => true
  | _ => false
  end.

Definition zn (a : float) : bool := SFzn (Prim2SF a).

(** ** Inputs on which the functions are evaluated *)

(** Three points, each within one epsilon of the next on the x axis. *)
Definition chain_p : point := mkpoint 0 0.
Definition chain_q : point := mkpoint epsilon 0.
Definition chain_r : point := mkpoint (2 * epsilon) 0.

(** A triangle of three collinear points. *)
Definition flat_triangle : triangle :=
  mktriangle (mkpoint 0 0) (mkpoint 1 0) (mkpoint 2 0).

(** The right triangle (0,0), (1,0), (0,1) and its vertices as an input. *)
Definition unit_triangle : triangle :=
  mktriangle (mkpoint 0 0) (mkpoint 1 0) (mkpoint 0 1).

Definition unit_points : list point :=
  [mkpoint 0 0; mkpoint 1 0; mkpoint 0 1].

(** Three points spanning a right triangle whose legs are 2^-30 long. *)
Definition tiny_points : list point :=
  [mkpoint 0 0; mkpoint 0x1p-30 0; mkpoint 0 0x1p-30].

Definition tiny_triangle : triangle :=
  mktriangle (mkpoint 0 0) (mkpoint 0x1p-30 0) (mkpoint 0 0x1p-30).

(** Four points, the first two of them on the vertical line x = 0. *)
Definition shielded_points : list point :=
  [mkpoint 0 0; mkpoint 0 1; mkpoint 1 1; mkpoint 2 0].

Definition shielded_triangle : triangle :=
  mktriangle (mkpoint 0 1) (mkpoint 1 1) (mkpoint 2 0).

(** Three points on the line x = 3 y + 1. *)
Definition slanted_points : list point :=
  [mkpoint 1 0; mkpoint 4 1; mkpoint 7 2].

Definition slanted_triangle : triangle :=
  mktriangle (mkpoint 1 0) (mkpoint 4 1) (mkpoint 7 2).

(** Three points spanning a right triangle whose first edge is vertical. *)
Definition upright_points : list point :=
  [mkpoint 0 0; mkpoint 0 1; mkpoint 1 0].

Definition upright_triangle : triangle :=
  mktriangle (mkpoint 0 0) (mkpoint 0 1) (mkpoint 1 0).

(** The inputs of the repository's own tests ("Nearly collinear points are
    triangulated", "Collinear points have no triangulation").  A decimal
    literal denotes the nearest double, as in C++. *)
#[local] Set Warnings "-inexact-float".

Definition near_collinear_1 : list point :=
  [mkpoint 0.0422123 0.608088; mkpoint 0.0326503 (-0.388441);
   mkpoint (-0.0545815) 0.166688].

Definition near_collinear_2 : list point :=
  [mkpoint 0.286269 (-0.615398); mkpoint 0.262937 (-0.6643);
   mkpoint 0.56914 (-0.0624119)].

Definition near_collinear_3 : list point :=
  [mkpoint 0.25 0.25; mkpoint 0.35 0.35; mkpoint 0.45 0.45005].

#[local] Set Warnings "inexact-float".

Definition horizontal_line : list point :=
  [mkpoint 0 1; mkpoint 0.5 1; mkpoint 1.5 1].

Definition vertical_line : list point :=
  [mkpoint 0 (-5); mkpoint 0 0; mkpoint 0 10].

(** * Facts about binary64 comparison and subtraction

    The primitive operations are specified by [SpecFloat]; the lemmas below
    are proved on [spec_float] and transported along [Prim2SF]. *)

Module FloatFacts.

Lemma compare_cont_Eq (m n : positive) :
  Pos.compare_cont Eq m n = Pos.compare m n.
Proof. reflexivity. Qed.

Lemma SFcompare_antisym (a b : spec_float) :
  SFcompare b a = option_map CompOpp (SFcompare a b).
Proof.
  destruct a as [sa|sa| |sa ma ea], b as [sb|sb| |sb mb eb]; simpl;
    try destruct sa; try destruct sb; simpl; try reflexivity;
    rewrite !compare_cont_Eq, (Z.compare_antisym ea eb),
      (Pos.compare_antisym ma mb);
    destruct (ea ?= eb)%Z; simpl; try reflexivity;
    destruct (ma ?= mb)%positive; reflexivity.
Qed.

Lemma SFltb_irrefl (a : spec_float) : SFltb a a = false.
Proof.
  unfold SFltb.
  destruct a as [sa|sa| |sa ma ea]; simpl; try destruct sa; try reflexivity;
    rewrite compare_cont_Eq, Z.compare_refl, Pos.compare_refl; reflexivity.
Qed.

Lemma SFltb_asym (a b : spec_float) : SFltb a b = true -> SFltb b a = false.
Proof.
  unfold SFltb. rewrite (SFcompare_antisym a b).
  destruct (SFcompare a b) as [[ | | ]|]; simpl; congruence.
Qed.

(** The order on two finite floats of the same sign is the lexicographic
    order on (exponent, mantissa). *)
Lemma lex_lt (e1 e2 : Z) (m1 m2 : positive) :
  match (e1 ?= e2)%Z with
  | Eq => Pos.compare_cont Eq m1 m2
  | Lt => Lt
  | Gt => Gt
  end = Lt <-> (e1 < e2)%Z \/ (e1 = e2 /\ (m1 < m2)%positive).
Proof.
  rewrite compare_cont_Eq.
  destruct (Z.compare_spec e1 e2); destruct (Pos.compare_spec m1 m2);
    split; intros; try discriminate; try reflexivity; try lia.
Qed.

Lemma lex_gt (e1 e2 : Z) (m1 m2 : positive) :
  match (e1 ?= e2)%Z with
  | Eq => CompOpp (Pos.compare_cont Eq m1 m2)
  | Lt => Gt
  | Gt => Lt
  end = Lt <-> (e2 < e1)%Z \/ (e1 = e2 /\ (m2 < m1)%positive).
Proof.
  rewrite compare_cont_Eq.
  destruct (Z.compare_spec e1 e2); destruct (Pos.compare_spec m1 m2);
    simpl; split; intros; try discriminate; try reflexivity; try lia.
Qed.

Lemma is_Lt (c : comparison) :
  match c with Lt => true | _ => false end = true -> c = Lt.
Proof. destruct c; congruence. Qed.

Lemma SFltb_trans (a b c : spec_float) :
  SFltb a b = true -> SFltb b c = true -> SFltb a c = true.
Proof.
  unfold SFltb.
  destruct a as [sa|sa| |sa ma ea], b as [sb|sb| |sb mb eb],
           c as [sc|sc| |sc mc ec]; simpl;
    try destruct sa; try destruct sb; try destruct sc; simpl;
    try congruence; intros Hab Hbc;
    apply is_Lt in Hab; apply is_Lt in Hbc.
  - apply lex_gt in Hab, Hbc.
    assert (Hac : match (ea ?= ec)%Z with
                  | Eq => CompOpp (Pos.compare_cont Eq ma mc)
                  | Lt => Gt | Gt => Lt end = Lt) by (apply lex_gt; lia).
    rewrite Hac; reflexivity.
  - apply lex_lt in Hab, Hbc.
    assert (Hac : match (ea ?= ec)%Z with
                  | Eq => Pos.compare_cont Eq ma mc
                  | Lt => Lt | Gt => Gt end = Lt) by (apply lex_lt; lia).
    rewrite Hac; reflexivity.
Qed.

Lemma SFeqb_sym (a b : spec_float) : SFeqb a b = SFeqb b a.
Proof.
  unfold SFeqb. rewrite (SFcompare_antisym a b).
  destruct (SFcompare a b) as [[ | | ]|]; reflexivity.
Qed.

(** Rounding decides the sign last: the magnitude of a rounded value does
    not depend on the sign bit it is given. *)
Lemma SFabs_binary_round_aux (s s' : bool) (m e : Z) (l : location) :
  SFabs (binary_round_aux prec emax s m e l)
  = SFabs (binary_round_aux prec emax s' m e l).
Proof.
  unfold binary_round_aux.
  destruct (shr_fexp prec emax m e l) as [mrs' e'].
  destruct (shr_fexp prec emax _ e' loc_Exact) as [mrs'' e''].
  destruct (shr_m mrs''); try reflexivity.
  destruct (e'' <=? emax - prec)%Z; reflexivity.
Qed.

Lemma SFabs_binary_normalize_opp (m e : Z) :
  SFabs (binary_normalize prec emax (- m) e false)
  = SFabs (binary_normalize prec emax m e false).
Proof.
  destruct m as [|p|p]; simpl; try reflexivity;
    unfold binary_round;
    destruct (shl_align p e _) as [mz ez]; apply SFabs_binary_round_aux.
Qed.

(** [fabs(a - b)] and [fabs(b - a)] are the same double (or both NaN). *)
Lemma SFabs_sub_sym (a b : spec_float) :
  SFabs (SF64sub a b) = SFabs (SF64sub b a).
Proof.
  unfold SF64sub.
  destruct a as [sa|sa| |sa ma ea], b as [sb|sb| |sb mb eb]; simpl;
    try destruct sa; try destruct sb; try reflexivity;
    rewrite (Z.min_comm eb ea);
    rewrite <- SFabs_binary_normalize_opp;
    match goal with
    | |- SFabs (binary_normalize _ _ ?u _ _)
         = SFabs (binary_normalize _ _ ?v _ _) =>
        replace u with v by (unfold cond_Zopp; lia)
    end; reflexivity.
Qed.

(** *** Transport to the primitive type *)

Lemma ltb_irrefl (a : float) : (a <? a) = false.
Proof. rewrite FloatAxioms.ltb_spec. apply SFltb_irrefl. Qed.

Lemma ltb_asym (a b : float) : (a <? b) = true -> (b <? a) = false.
Proof. rewrite !FloatAxioms.ltb_spec. apply SFltb_asym. Qed.

Lemma ltb_trans (a b c : float) :
  (a <? b) = true -> (b <? c) = true -> (a <? c) = true.
Proof. rewrite !FloatAxioms.ltb_spec. apply SFltb_trans. Qed.

Lemma eqb_sym (a b : float) : (a =? b) = (b =? a).
Proof. rewrite !FloatAxioms.eqb_spec. apply SFeqb_sym. Qed.

Lemma abs_sub_sym (a b : float) : abs (a - b) = abs (b - a).
Proof.
  apply Prim2SF_inj. rewrite !FloatAxioms.abs_spec, !FloatAxioms.sub_spec. apply SFabs_sub_sym.
Qed.

(** [a == a] holds for every double except NaN. *)
Lemma eqb_refl_iff (a : float) : (a =? a) = negb (is_nan a).
Proof.
  unfold is_nan. rewrite FloatAxioms.eqb_spec. destruct (SFeqb _ _); reflexivity.
Qed.

(** [a < +inf] holds exactly when [a] is neither NaN nor [+inf]. *)
Lemma ltb_inf_iff (a : float) :
  (a <? inf) = negb (is_nan a) && negb (a =? inf).
Proof.
  unfold is_nan, inf. rewrite FloatAxioms.ltb_spec, !FloatAxioms.eqb_spec.
  replace (Prim2SF infinity) with (S754_infinity false) by reflexivity.
  unfold SFltb, SFeqb.
  destruct (Prim2SF a) as [s|s| |s m e]; simpl; try destruct s; try reflexivity;
    rewrite compare_cont_Eq, Z.compare_refl, Pos.compare_refl; reflexivity.
Qed.

(** A NaN operand makes [fabs(a - b) <= e] false. *)
Lemma abs_sub_nan_leb (a b e : float) :
  is_nan a = true -> (abs (a - b) <=? e) = false.
Proof.
  unfold is_nan. rewrite FloatAxioms.leb_spec, FloatAxioms.abs_spec,
    FloatAxioms.sub_spec, FloatAxioms.eqb_spec.
  unfold SF64sub, SFleb, SFeqb.
  destruct (Prim2SF a) as [s|s| |s m ex]; simpl; try destruct s;
    try discriminate; try reflexivity;
    rewrite compare_cont_Eq, Z.compare_refl, Pos.compare_refl; discriminate.
Qed.

(** If neither [c <= m] nor [m < c] holds and [c] is a number, then [m] is
    NaN, and every ordered comparison of [u - m * v] is false. *)
Lemma unordered_is_nan (c m : float) :
  is_nan c = false -> (c <=? m) = false -> (m <? c) = false ->
  Prim2SF m = S754_nan.
Proof.
  unfold is_nan.
  rewrite FloatAxioms.leb_spec, FloatAxioms.ltb_spec, FloatAxioms.eqb_spec.
  unfold SFleb, SFltb, SFeqb. rewrite (SFcompare_antisym (Prim2SF c) (Prim2SF m)).
  destruct (Prim2SF c) as [s|s| |s mc ec], (Prim2SF m) as [s'|s'| |s' mm em];
    simpl; try destruct s; try destruct s'; simpl; try congruence;
    try (rewrite compare_cont_Eq, Z.compare_refl, Pos.compare_refl; discriminate);
    intros _; destruct (ec ?= em)%Z; simpl; try congruence;
    destruct (Pos.compare_cont Eq mc mm); simpl; congruence.
Qed.

Lemma nan_product_unordered (m u v b : float) :
  Prim2SF m = S754_nan ->
  (u - m * v <? b) = false /\ (b <? u - m * v) = false.
Proof.
  intros Hm.
  rewrite !FloatAxioms.ltb_spec, FloatAxioms.sub_spec, FloatAxioms.mul_spec, Hm.
  unfold SF64sub, SF64mul, SFltb; simpl.
  destruct (Prim2SF u) as [s|s| |s mu eu]; simpl;
    destruct (Prim2SF b) as [s'|s'| |s' mb eb]; split; reflexivity.
Qed.

Lemma leb_not_ltb (c m : float) : (c <=? m) = true -> (m <? c) = false.
Proof.
  rewrite FloatAxioms.leb_spec, FloatAxioms.ltb_spec. unfold SFleb, SFltb.
  rewrite (SFcompare_antisym (Prim2SF c) (Prim2SF m)).
  destruct (SFcompare (Prim2SF c) (Prim2SF m)) as [[ | | ]|]; simpl; congruence.
Qed.

(** *** Addition, squares, signs and zeros *)

Lemma SFadd_comm (a b : spec_float) : SF64add a b = SF64add b a.
Proof.
  unfold SF64add.
  destruct a as [sa|sa| |sa ma ea], b as [sb|sb| |sb mb eb]; simpl;
    try destruct sa; try destruct sb; try reflexivity;
    rewrite (Z.min_comm eb ea); f_equal; apply Z.add_comm.
Qed.

Lemma SFmul_self_abs (u : spec_float) :
  SF64mul u u = SF64mul (SFabs u) (SFabs u).
Proof.
  unfold SF64mul. destruct u as [s|s| |s m e]; simpl; try reflexivity;
    rewrite xorb_nilpotent; reflexivity.
Qed.

Lemma SFnonneg_binary_round_aux (m e : Z) (l : location) :
  SFnonneg (binary_round_aux prec emax false m e l) = true.
Proof.
  unfold binary_round_aux.
  destruct (shr_fexp prec emax m e l) as [mrs' e'].
  destruct (shr_fexp prec emax _ e' loc_Exact) as [mrs'' e''].
  destruct (shr_m mrs''); try reflexivity.
  destruct (e'' <=? emax - prec)%Z; reflexivity.
Qed.

Lemma SFnonneg_mul_self (u : spec_float) : SFnonneg (SF64mul u u) = true.
Proof.
  unfold SF64mul. destruct u as [s|s| |s m e]; simpl;
    rewrite ?xorb_nilpotent; try reflexivity.
  apply SFnonneg_binary_round_aux.
Qed.

Lemma SFnonneg_add (u v : spec_float) :
  SFnonneg u = true -> SFnonneg v = true -> SFnonneg (SF64add u v) = true.
Proof.
  unfold SF64add.
  destruct u as [s|s| |s m e], v as [s'|s'| |s' m' e']; simpl;
    try destruct s; try destruct s'; simpl; try congruence; intros _ _.
  unfold binary_round.
  destruct (shl_align _ _ _) as [mz ez]. apply SFnonneg_binary_round_aux.
Qed.

Lemma SFnonneg_not_below (u r : spec_float) :
  SFnonneg u = true -> SFleb r (S754_zero false) = true -> SFltb u r = false.
Proof.
  unfold SFleb, SFltb.
  destruct u as [s|s| |s m e], r as [s'|s'| |s' m' e']; simpl;
    try destruct s; try destruct s'; simpl; congruence.
Qed.

Lemma zn_sub_self (a : float) : zn (a - a) = true.
Proof.
  unfold zn. rewrite FloatAxioms.sub_spec. unfold SF64sub.
  destruct (Prim2SF a) as [s|s| |s m e]; simpl; try destruct s; try reflexivity;
    rewrite Z.sub_diag; reflexivity.
Qed.

Lemma zn_mul_l (a b : float) : zn a = true -> zn (a * b) = true.
Proof.
  unfold zn. rewrite FloatAxioms.mul_spec. unfold SF64mul.
  destruct (Prim2SF a) as [s|s| |s m e], (Prim2SF b) as [s'|s'| |s' m' e'];
    simpl; congruence.
Qed.

Lemma zn_mul_r (a b : float) : zn b = true -> zn (a * b) = true.
Proof.
  unfold zn. rewrite FloatAxioms.mul_spec. unfold SF64mul.
  destruct (Prim2SF a) as [s|s| |s m e], (Prim2SF b) as [s'|s'| |s' m' e'];
    simpl; congruence.
Qed.

Lemma zn_sub (a b : float) : zn a = true -> zn b = true -> zn (a - b) = true.
Proof.
  unfold zn. rewrite FloatAxioms.sub_spec. unfold SF64sub.
  destruct (Prim2SF a) as [s|s| |s m e], (Prim2SF b) as [s'|s'| |s' m' e'];
    simpl; try destruct s; try destruct s'; simpl; congruence.
Qed.

Lemma zn_half (a : float) : zn a = true -> zn (a / 2) = true.
Proof.
  unfold zn. rewrite FloatAxioms.div_spec. unfold SF64div.
  replace (Prim2SF 2) with (S754_finite false 4503599627370496 (-51))
    by reflexivity.
  intros H. destruct (Prim2SF a) as [s|s| |s m e]; try discriminate H;
    reflexivity.
Qed.

Lemma zn_not_above_epsilon (a : float) :
  zn a = true -> (epsilon <? abs a) = false.
Proof.
  unfold zn. rewrite FloatAxioms.ltb_spec, FloatAxioms.abs_spec.
  replace (Prim2SF epsilon) with (S754_finite false 4503599627370496 (-104))
    by reflexivity.
  intros H. destruct (Prim2SF a) as [s|s| |s m e]; try discriminate H;
    reflexivity.
Qed.

Lemma SFabs_div_abs (u w : spec_float) :
  SFabs (SF64div u w) = SFabs (SF64div (SFabs u) w).
Proof.
  unfold SF64div.
  destruct u as [s|s| |s m e], w as [s'|s'| |s' m' e']; simpl; try reflexivity.
  destruct (SFdiv_core_binary prec emax (Z.pos m) e (Z.pos m') e') as [[mz ez] lz].
  apply SFabs_binary_round_aux.
Qed.

Lemma abs_div_abs (u v w : float) : abs u = abs v -> abs (u / w) = abs (v / w).
Proof.
  intros H. apply Prim2SF_inj.
  rewrite !FloatAxioms.abs_spec, !FloatAxioms.div_spec.
  rewrite (SFabs_div_abs (Prim2SF u)), (SFabs_div_abs (Prim2SF v)).
  rewrite <- !FloatAxioms.abs_spec, H. reflexivity.
Qed.

(** *** Infinite coordinates *)

Lemma abs_eqb_inf (a : float) :
  (abs a =? inf) = true <-> a = infinity \/ a = neg_infinity.
Proof.
  unfold inf. rewrite FloatAxioms.eqb_spec, FloatAxioms.abs_spec.
  replace (Prim2SF infinity) with (S754_infinity false) by reflexivity.
  split.
  - intros H. destruct (Prim2SF a) as [s|s| |s m e] eqn:Ha;
      try (unfold SFeqb in H; simpl in H; discriminate).
    destruct s; [right | left]; apply Prim2SF_inj; rewrite Ha; reflexivity.
  - intros [-> | ->]; reflexivity.
Qed.

Lemma far_from_infinite (a b : float) :
  (abs a =? inf) = false -> (abs b =? inf) = true ->
  (a =? b) = false /\ (abs (a - b) <=? epsilon) = false.
Proof.
  unfold inf.
  rewrite !FloatAxioms.eqb_spec, FloatAxioms.leb_spec, !FloatAxioms.abs_spec,
    FloatAxioms.sub_spec.
  replace (Prim2SF infinity) with (S754_infinity false) by reflexivity.
  replace (Prim2SF epsilon) with (S754_finite false 4503599627370496 (-104))
    by reflexivity.
  intros Ha Hb.
  destruct (Prim2SF b) as [s'|s'| |s' m' e']; try discriminate Hb.
  destruct (Prim2SF a) as [s|s| |s m e];
    try destruct s; try destruct s'; try discriminate Ha;
    split; reflexivity.
Qed.

Lemma SFnonneg_not_below_pos (u r : spec_float) :
  SFnonneg u = true -> SFltb (S754_zero false) r = false -> SFltb u r = false.
Proof.
  unfold SFltb.
  destruct u as [s|s| |s m e], r as [s'|s'| |s' m' e']; simpl;
    try destruct s; try destruct s'; simpl; congruence.
Qed.

Lemma SFeqb_zero_abs (u : spec_float) :
  SFeqb u (S754_zero false) = SFeqb (SFabs u) (S754_zero false).
Proof. destruct u as [s|s| |s m e]; try destruct s; reflexivity. Qed.

Lemma SFabs_div_abs_r (u w : spec_float) :
  SFabs (SF64div u w) = SFabs (SF64div u (SFabs w)).
Proof.
  unfold SF64div.
  destruct u as [s|s| |s m e], w as [s'|s'| |s' m' e']; simpl; try reflexivity.
  destruct (SFdiv_core_binary prec emax (Z.pos m) e (Z.pos m') e') as [[mz ez] lz].
  apply SFabs_binary_round_aux.
Qed.

(** *** Transport of the arithmetic facts *)

Lemma add_comm (a b : float) : a + b = b + a.
Proof. apply Prim2SF_inj. rewrite !FloatAxioms.add_spec. apply SFadd_comm. Qed.

Lemma sq_sub_sym (a b : float) : (a - b) * (a - b) = (b - a) * (b - a).
Proof.
  apply Prim2SF_inj. rewrite !FloatAxioms.mul_spec.
  rewrite (SFmul_self_abs (Prim2SF (a - b))), (SFmul_self_abs (Prim2SF (b - a))).
  rewrite <- !FloatAxioms.abs_spec, (abs_sub_sym a b). reflexivity.
Qed.

Lemma sq_sum_nonneg (a b : float) : SFnonneg (Prim2SF (a * a + b * b)) = true.
Proof.
  rewrite FloatAxioms.add_spec, !FloatAxioms.mul_spec.
  apply SFnonneg_add; apply SFnonneg_mul_self.
Qed.

Lemma nonneg_not_below (u r : float) :
  SFnonneg (Prim2SF u) = true -> (0 <? r) = false -> (u <? r) = false.
Proof.
  rewrite !FloatAxioms.ltb_spec.
  replace (Prim2SF 0) with (S754_zero false) by reflexivity.
  apply SFnonneg_not_below_pos.
Qed.

Lemma eqb_zero_abs (u v : float) : abs u = abs v -> (u =? 0) = (v =? 0).
Proof.
  intros H. rewrite !FloatAxioms.eqb_spec.
  replace (Prim2SF 0) with (S754_zero false) by reflexivity.
  rewrite (SFeqb_zero_abs (Prim2SF u)), (SFeqb_zero_abs (Prim2SF v)).
  rewrite <- !FloatAxioms.abs_spec, H. reflexivity.
Qed.

Lemma abs_div_abs2 (u v w w' : float) :
  abs u = abs v -> abs w = abs w' -> abs (u / w) = abs (v / w').
Proof.
  intros H H'. rewrite (abs_div_abs u v w H).
  apply Prim2SF_inj. rewrite !FloatAxioms.abs_spec, !FloatAxioms.div_spec.
  rewrite (SFabs_div_abs_r (Prim2SF v) (Prim2SF w)),
    (SFabs_div_abs_r (Prim2SF v) (Prim2SF w')).
  rewrite <- !FloatAxioms.abs_spec, H'. reflexivity.
Qed.

(** [a - a] is [+0] for every double that is neither NaN nor infinite. *)
Lemma sub_self_zero (a : float) :
  is_nan a = false -> (abs a =? inf) = false -> a - a = 0.
Proof.
  unfold is_nan, inf. rewrite !FloatAxioms.eqb_spec, FloatAxioms.abs_spec.
  replace (Prim2SF infinity) with (S754_infinity false) by reflexivity.
  intros Hn Hi. apply Prim2SF_inj. rewrite FloatAxioms.sub_spec.
  replace (Prim2SF 0) with (S754_zero false) by reflexivity.
  unfold SF64sub, SFeqb in *.
  destruct (Prim2SF a) as [s|s| |s m e]; simpl in *; try destruct s;
    try discriminate; try reflexivity; rewrite Z.sub_diag; reflexivity.
Qed.

(** *** NaN operands *)

Lemma is_nan_spec (a : float) : is_nan a = true <-> Prim2SF a = S754_nan.
Proof.
  unfold is_nan. rewrite FloatAxioms.eqb_spec. unfold SFeqb.
  destruct (Prim2SF a) as [s|s| |s m e]; simpl; try destruct s; simpl;
    rewrite ?compare_cont_Eq, ?Z.compare_refl, ?Pos.compare_refl; simpl;
    split; congruence.
Qed.

Lemma nan_add_l (a b : float) : is_nan a = true -> is_nan (a + b) = true.
Proof.
  rewrite !is_nan_spec, FloatAxioms.add_spec. intros ->. reflexivity.
Qed.

Lemma nan_add_r (a b : float) : is_nan b = true -> is_nan (a + b) = true.
Proof.
  rewrite !is_nan_spec, FloatAxioms.add_spec. intros ->.
  destruct (Prim2SF a); reflexivity.
Qed.

Lemma nan_sub_l (a b : float) : is_nan a = true -> is_nan (a - b) = true.
Proof.
  rewrite !is_nan_spec, FloatAxioms.sub_spec. intros ->. reflexivity.
Qed.

Lemma nan_sub_r (a b : float) : is_nan b = true -> is_nan (a - b) = true.
Proof.
  rewrite !is_nan_spec, FloatAxioms.sub_spec. intros ->.
  destruct (Prim2SF a); reflexivity.
Qed.

Lemma nan_mul_l (a b : float) : is_nan a = true -> is_nan (a * b) = true.
Proof.
  rewrite !is_nan_spec, FloatAxioms.mul_spec. intros ->. reflexivity.
Qed.

Lemma nan_mul_r (a b : float) : is_nan b = true -> is_nan (a * b) = true.
Proof.
  rewrite !is_nan_spec, FloatAxioms.mul_spec. intros ->.
  destruct (Prim2SF a); reflexivity.
Qed.

Lemma nan_div_l (a b : float) : is_nan a = true -> is_nan (a / b) = true.
Proof.
  rewrite !is_nan_spec, FloatAxioms.div_spec. intros ->. reflexivity.
Qed.

Lemma nan_ltb_l (a b : float) : is_nan a = true -> (a <? b) = false.
Proof.
  rewrite is_nan_spec, FloatAxioms.ltb_spec. intros ->. reflexivity.
Qed.

Lemma nan_ltb_r (a b : float) : is_nan b = true -> (a <? b) = false.
Proof.
  rewrite is_nan_spec, FloatAxioms.ltb_spec. intros ->.
  unfold SFltb. destruct (Prim2SF a); reflexivity.
Qed.

End FloatFacts.

(** * Geometric primitives *)

Section Primitives.

Import FloatFacts.

(** [p == p] fails exactly when a coordinate of [p] is NaN. *)
Lemma point_eq_refl_iff (p : point) :
  point_eq p p = negb (is_nan (x p)) && negb (is_nan (y p)).
Proof.
  unfold point_eq. rewrite !eqb_refl_iff.
  destruct (is_nan (x p)) eqn:Hx; simpl.
  - rewrite (abs_sub_nan_leb (x p) (x p) epsilon Hx). reflexivity.
  - destruct (is_nan (y p)) eqn:Hy; simpl; [|reflexivity].
    rewrite (abs_sub_nan_leb (y p) (y p) epsilon Hy). apply andb_false_r.
Qed.

Lemma point_eq_sym (p q : point) : point_eq p q = point_eq q p.
Proof.
  unfold point_eq.
  rewrite (eqb_sym (x p) (x q)), (eqb_sym (y p) (y q)),
    (abs_sub_sym (x p) (x q)), (abs_sub_sym (y p) (y q)).
  reflexivity.
Qed.

End Primitives.

(** * The half-plane test *)

Section Halfplane.

Import FloatFacts.

Lemma finite_super_a : finite super_a = false.
Proof. reflexivity. Qed.

Lemma finite_super_b : finite super_b = false.
Proof. reflexivity. Qed.

Lemma finite_super_c : finite super_c = false.
Proof. reflexivity. Qed.

Lemma symbolic_not_finite (v : point) : symbolic v -> finite v = false.
Proof. intros [-> | [-> | ->]]; reflexivity. Qed.

(** Unfold the test on a triangle given by its three vertices and decide the
    finiteness of each of them from the context. *)
Ltac hp_eval :=
  unfold halfplane_contains; cbn [ta tb tc];
  repeat match goal with
         | H : finite _ = _ |- _ => rewrite !H
         end;
  rewrite ?finite_super_a, ?finite_super_b, ?finite_super_c; cbn.

Lemma halfplane_no_finite (u v w p : point) :
  symbolic u -> symbolic v -> symbolic w ->
  halfplane_contains (mktriangle u v w) p = true.
Proof.
  intros Hu Hv Hw.
  apply symbolic_not_finite in Hu, Hv, Hw.
  hp_eval. reflexivity.
Qed.

Lemma halfplane_one_finite_bc (f p : point) (t : triangle) :
  finite f = true -> arrangement t f super_b super_c ->
  halfplane_contains t p = gtb (y p + x p) (y f + x f).
Proof.
  intros Hf [-> | [-> | [-> | [-> | [-> | ->]]]]]; hp_eval; reflexivity.
Qed.

Lemma halfplane_one_finite_ba (f p : point) (t : triangle) :
  finite f = true -> arrangement t f super_b super_a ->
  halfplane_contains t p = gtb (y p - 3 * x p) (y f - 3 * x f).
Proof.
  intros Hf [-> | [-> | [-> | [-> | [-> | ->]]]]]; hp_eval; reflexivity.
Qed.

Lemma halfplane_one_finite_ac (f p : point) (t : triangle) :
  finite f = true -> arrangement t f super_a super_c ->
  halfplane_contains t p = (y p - x p / 3 <? y f - x f / 3).
Proof.
  intros Hf [-> | [-> | [-> | [-> | [-> | ->]]]]]; hp_eval; reflexivity.
Qed.

Lemma halfplane_two_finite_b (v1 v2 p : point) (t : triangle) :
  finite v1 = true -> finite v2 = true -> around t super_b v1 v2 ->
  halfplane_contains t p
  = gtb (y p - slope v1 v2 * x p) (y v1 - slope v1 v2 * x v1).
Proof.
  intros H1 H2 [-> | [-> | ->]]; hp_eval; reflexivity.
Qed.

(** The source tests [m >= c] and takes the other comparison in the [else]
    branch; the specification words the [else] branch as [m < c].  They
    differ only when [m] is NaN, and then both comparisons are false. *)
Lemma branch_on_slope (c m u v b : float) :
  is_nan c = false ->
  (if geb m c then u - m * v <? b else gtb (u - m * v) b)
  = ((geb m c && (u - m * v <? b)) || ((m <? c) && gtb (u - m * v) b))
  /\ (if geb m c then gtb (u - m * v) b else u - m * v <? b)
     = ((geb m c && gtb (u - m * v) b) || ((m <? c) && (u - m * v <? b))).
Proof.
  intros Hc. unfold geb, gtb.
  destruct (c <=? m) eqn:Hle.
  - rewrite (leb_not_ltb c m Hle). simpl. rewrite !orb_false_r. split; reflexivity.
  - destruct (m <? c) eqn:Hlt; simpl; [split; reflexivity|].
    destruct (nan_product_unordered m u v b
                (unordered_is_nan c m Hc Hle Hlt)) as [-> ->].
    split; reflexivity.
Qed.

Lemma halfplane_two_finite_c (v1 v2 p : point) (t : triangle) :
  finite v1 = true -> finite v2 = true -> around t super_c v1 v2 ->
  let m := slope v1 v2 in
  let b := y v1 - m * x v1 in
  halfplane_contains t p
  = ((geb m 0 && (y p - m * x p <? b)) || ((m <? 0) && gtb (y p - m * x p) b)).
Proof.
  intros H1 H2 Ht m b.
  destruct (branch_on_slope 0 m (y p) (x p) b eq_refl) as [<- _].
  destruct Ht as [-> | [-> | ->]]; hp_eval; reflexivity.
Qed.

Lemma halfplane_two_finite_a (v1 v2 p : point) (t : triangle) :
  finite v1 = true -> finite v2 = true -> around t super_a v1 v2 ->
  let m := slope v1 v2 in
  let b := y v1 - m * x v1 in
  halfplane_contains t p
  = ((geb m 1 && gtb (y p - m * x p) b) || ((m <? 1) && (y p - m * x p <? b))).
Proof.
  intros H1 H2 Ht m b.
  destruct (branch_on_slope 1 m (y p) (x p) b eq_refl) as [_ <-].
  destruct Ht as [-> | [-> | ->]]; hp_eval; reflexivity.
Qed.

Lemma halfplane_all_finite (t : triangle) (p : point) :
  finite (ta t) = true -> finite (tb t) = true -> finite (tc t) = true ->
  halfplane_contains t p = false.
Proof.
  intros Ha Hb Hc. unfold halfplane_contains. rewrite Ha, Hb, Hc. reflexivity.
Qed.

(** C7.  On a triangle whose infinite vertices are symbolic vertices of the
    super-triangle, [halfplane_contains] returns the answer of the case
    analysis of section 4.2 of the specification: [true] with no finite
    vertex; the three fixed boundary lines with one finite vertex; the line
    through the two finite vertices, on the side chosen by the infinite
    vertex and the slope, with two finite vertices. *)
Theorem halfplane_contains_cases (p : point) (t : triangle) (r : bool) :
  halfplane_case p t r -> halfplane_contains t p = r.
Proof.
  intros H. destruct H.
  - now apply halfplane_no_finite.
  - now apply halfplane_one_finite_bc.
  - now apply halfplane_one_finite_ba.
  - now apply halfplane_one_finite_ac.
  - now apply halfplane_two_finite_b.
  - now apply halfplane_two_finite_c.
  - now apply halfplane_two_finite_a.
  - now apply halfplane_all_finite.
Qed.

(** C9.  A triangle whose three vertices are finite is never reported by the
    half-plane test, whatever the query point; a triangle that is reported
    has an infinite vertex. *)
Theorem halfplane_contains_needs_infinite (t : triangle) (p : point) :
  (finite (ta t) && finite (tb t) && finite (tc t) = true ->
   halfplane_contains t p = false)
  /\ (halfplane_contains t p = true ->
      finite (ta t) = false \/ finite (tb t) = false \/ finite (tc t) = false).
Proof.
  split.
  - intros H. apply andb_prop in H as [H Hc]. apply andb_prop in H as [Ha Hb].
    now apply halfplane_all_finite.
  - intros H.
    destruct (finite (ta t)) eqn:Ha; [|now left].
    destruct (finite (tb t)) eqn:Hb; [|now right; left].
    destruct (finite (tc t)) eqn:Hc; [|now right; right].
    rewrite (halfplane_all_finite t p Ha Hb Hc) in H. discriminate.
Qed.

End Halfplane.

(** * Point equality, circles and circumcircles *)

Section Circles.

Import FloatFacts.

(** C10 as stated fails on reflexivity: a point with a NaN coordinate is
    not equal to itself. *)
Lemma point_eq_nan_not_reflexive :
  point_eq (mkpoint nan 0) (mkpoint nan 0) = false.
Proof. reflexivity. Qed.

(** C10, amended.  [point::operator==] is reflexive exactly on the points
    without a NaN coordinate (so on every finite or infinite point), it is
    symmetric on all points, and it is not transitive: [chain_p == chain_q]
    and [chain_q == chain_r] hold through the epsilon tolerance while
    [chain_p == chain_r] does not. *)
Theorem point_eq_relation :
  (forall p, point_eq p p = negb (is_nan (x p)) && negb (is_nan (y p)))
  /\ (forall p q, point_eq p q = point_eq q p)
  /\ (exists p q r,
         point_eq p q = true /\ point_eq q r = true /\ point_eq p r = false).
Proof.
  split; [exact point_eq_refl_iff|].
  split; [exact point_eq_sym|].
  exists chain_p, chain_q, chain_r. repeat split; reflexivity.
Qed.

Lemma circumcircle_invalid (t : triangle) :
  valid t = false -> circumcircle t = sentinel.
Proof. intros H. unfold circumcircle. rewrite H. reflexivity. Qed.

Lemma circumcircle_valid (t : triangle) :
  valid t = true ->
  circumcircle t
  = mkcircle (circumcenter t)
      (fmin (fmin (distance_squared (ta t) (circumcenter t))
                  (distance_squared (tb t) (circumcenter t)))
            (distance_squared (tc t) (circumcenter t))).
Proof. intros H. unfold circumcircle. rewrite H. reflexivity. Qed.

(** The containment test is the comparison of [distance_squared] with the
    stored radius. *)
Lemma contains_distance (c : circle) (p : point) :
  contains c p = (distance_squared p (center c) <? radius c).
Proof. reflexivity. Qed.

(** C2 as stated fails: the circle returned for an invalid triangle contains
    the finite point (0,0) according to [circle::contains]. *)
Lemma sentinel_contains_origin :
  valid flat_triangle = false
  /\ finite (mkpoint 0 0) = true
  /\ contains (circumcircle flat_triangle) (mkpoint 0 0) = true.
Proof. repeat split; reflexivity. Qed.

(** C2, amended.  For an invalid triangle [circumcircle] returns the circle
    centred at the origin with infinite radius, which [circle::infinite]
    recognises, so that [triangulate] sends the triangle to the half-plane
    test and never asks [contains].  [contains] itself does not reject the
    sentinel: it answers [true] exactly when the squared distance of the
    query point to the origin, computed in double, is neither NaN nor
    [+inf]. *)
Theorem circumcircle_invalid_sentinel (t : triangle) :
  valid t = false ->
  circumcircle t = mkcircle (mkpoint 0 0) inf
  /\ infinite (circumcircle t) = true
  /\ (forall p, is_bad p t = halfplane_contains t p)
  /\ (forall p,
         let d := distance_squared p (mkpoint 0 0) in
         contains (circumcircle t) p = negb (is_nan d) && negb (d =? inf)).
Proof.
  intros H. rewrite (circumcircle_invalid t H).
  split; [reflexivity|]. split; [reflexivity|]. split.
  - intros p. unfold is_bad. rewrite (circumcircle_invalid t H). reflexivity.
  - intros p d. rewrite contains_distance. apply ltb_inf_iff.
Qed.

Lemma circumcircle_invalid_sentinel_witness :
  circumcircle flat_triangle = mkcircle (mkpoint 0 0) inf
  /\ infinite (circumcircle flat_triangle) = true.
Proof.
  destruct (circumcircle_invalid_sentinel flat_triangle eq_refl)
    as (H1 & H2 & _).
  split; assumption.
Defined.

(** [std::min] never returns a value that one of its arguments is below. *)
Lemma fmin_lower_l (a b : float) : (a <? fmin a b) = false.
Proof.
  unfold fmin. destruct (b <? a) eqn:H.
  - now apply ltb_asym.
  - apply ltb_irrefl.
Qed.

Lemma fmin_lower_r (a b : float) : (b <? fmin a b) = false.
Proof.
  unfold fmin. destruct (b <? a) eqn:H.
  - apply ltb_irrefl.
  - exact H.
Qed.

Lemma fmin_lower_trans (a b c : float) :
  (a <? b) = false -> (a <? fmin b c) = false.
Proof.
  intros H. unfold fmin. destruct (c <? b) eqn:Hcb; [|exact H].
  destruct (a <? c) eqn:Hac; [|reflexivity].
  rewrite (ltb_trans a c b Hac Hcb) in H. discriminate.
Qed.

Lemma fmin3_lower (a b c : float) :
  (a <? fmin (fmin a b) c) = false
  /\ (b <? fmin (fmin a b) c) = false
  /\ (c <? fmin (fmin a b) c) = false.
Proof.
  repeat split.
  - apply fmin_lower_trans, fmin_lower_l.
  - apply fmin_lower_trans, fmin_lower_r.
  - apply fmin_lower_r.
Qed.

Lemma fmin3_cases (a b c : float) :
  fmin (fmin a b) c = a \/ fmin (fmin a b) c = b \/ fmin (fmin a b) c = c.
Proof.
  unfold fmin. destruct (b <? a); destruct (c <? _); auto.
Qed.

(** C6.  For a valid triangle the stored radius is [std::min] of the three
    squared distances from the computed circumcenter to the vertices: it is
    one of the three, none of the three is below it, and so no vertex of the
    triangle is contained in the triangle's own circumcircle. *)
Theorem circumcircle_radius_min (t : triangle) :
  valid t = true ->
  let c := circumcircle t in
  let da := distance_squared (ta t) (center c) in
  let db := distance_squared (tb t) (center c) in
  let dc := distance_squared (tc t) (center c) in
  radius c = fmin (fmin da db) dc
  /\ (radius c = da \/ radius c = db \/ radius c = dc)
  /\ (da <? radius c) = false /\ (db <? radius c) = false
  /\ (dc <? radius c) = false
  /\ contains c (ta t) = false
  /\ contains c (tb t) = false
  /\ contains c (tc t) = false.
Proof.
  intros H. rewrite (circumcircle_valid t H). cbn zeta.
  rewrite !contains_distance. cbn [center radius].
  destruct (fmin3_lower (distance_squared (ta t) (circumcenter t))
                        (distance_squared (tb t) (circumcenter t))
                        (distance_squared (tc t) (circumcenter t)))
    as (Ha & Hb & Hc).
  repeat split; try assumption. apply fmin3_cases.
Qed.

Lemma circumcircle_radius_min_witness :
  valid unit_triangle = true
  /\ contains (circumcircle unit_triangle) (ta unit_triangle) = false
  /\ contains (circumcircle unit_triangle) (tb unit_triangle) = false
  /\ contains (circumcircle unit_triangle) (tc unit_triangle) = false.
Proof.
  split; [reflexivity|].
  destruct (circumcircle_radius_min unit_triangle eq_refl)
    as (_ & _ & _ & _ & _ & Ha & Hb & Hc).
  repeat split; assumption.
Defined.

End Circles.

(** * The triangulation driver *)

Section Driver.

Lemma in_edges_vertices (t : triangle) (e : edge) :
  In e (edges t) -> In (ea e) (vertices t) /\ In (eb e) (vertices t).
Proof.
  unfold edges, vertices. simpl.
  intros [<- | [<- | [<- | []]]]; simpl; auto.
Qed.

Lemma in_indexed_from {A : Type} (l : list A) (k i : nat) (a : A) :
  In (i, a) (indexed_from k l) -> In a l.
Proof.
  revert k. induction l as [|b l IH]; simpl; intros k H; [exact H|].
  destruct H as [H | H].
  - left. congruence.
  - right. exact (IH _ H).
Qed.

(** Every boundary edge is an edge of a flagged triangle. *)
Lemma polygon_of_edges (bad_set : list triangle) (e : edge) :
  In e (polygon_of bad_set) -> exists t, In t bad_set /\ In e (edges t).
Proof.
  unfold polygon_of. intros H.
  apply in_flat_map in H as [[i t] [Hit He]].
  apply filter_In in He as [He _].
  exists t. split; [|exact He].
  exact (in_indexed_from _ _ _ _ Hit).
Qed.

(** What an insertion step can put in the triangulation: a triangle that was
    there, or a triangle made of an edge of a triangle that was there and
    the inserted point. *)
Lemma insert_point_inv (triangulation : list triangle) (p : point) (t : triangle) :
  In t (insert_point triangulation p) ->
  In t triangulation
  \/ exists t0 e, In t0 triangulation /\ In e (edges t0)
                  /\ t = mktriangle (ea e) (eb e) p.
Proof.
  unfold insert_point. intros H. apply in_app_or in H as [H | H].
  - left. apply filter_In in H. tauto.
  - right. apply in_map_iff in H as [e [<- He]].
    apply polygon_of_edges in He as [t0 [Ht0 He]].
    apply filter_In in Ht0 as [Ht0 _].
    exists t0, e. auto.
Qed.

Section VertexInvariant.

Variable P : point -> Prop.

Lemma insert_point_vertices (triangulation : list triangle) (p : point) :
  all_vertices P triangulation -> P p ->
  all_vertices P (insert_point triangulation p).
Proof.
  intros Hall Hp t Ht v Hv.
  apply insert_point_inv in Ht as [Ht | (t0 & e & Ht0 & He & ->)].
  - exact (Hall t Ht v Hv).
  - destruct (in_edges_vertices t0 e He) as [Ha Hb].
    simpl in Hv. destruct Hv as [<- | [<- | [<- | []]]].
    + exact (Hall t0 Ht0 _ Ha).
    + exact (Hall t0 Ht0 _ Hb).
    + exact Hp.
Qed.

Lemma fold_insert_vertices (points : list point) :
  forall triangulation,
    all_vertices P triangulation -> (forall p, In p points -> P p) ->
    all_vertices P (fold_left insert_point points triangulation).
Proof.
  induction points as [|p points IH]; simpl; intros tri Hall Hpts.
  - exact Hall.
  - apply IH.
    + apply insert_point_vertices; auto.
    + auto.
Qed.

End VertexInvariant.

Lemma symbolic_touch (v : point) : symbolic v -> touch v = true.
Proof. intros [-> | [-> | ->]]; reflexivity. Qed.

Lemma touches_super_touch (t : triangle) :
  touches_super t = touch (ta t) || touch (tb t) || touch (tc t).
Proof.
  unfold touches_super, has_vertex, touch. cbn [super_triangle ta tb tc].
  destruct (point_eq (ta t) super_a), (point_eq (ta t) super_b),
    (point_eq (ta t) super_c), (point_eq (tb t) super_a),
    (point_eq (tb t) super_b), (point_eq (tb t) super_c),
    (point_eq (tc t) super_a), (point_eq (tc t) super_b),
    (point_eq (tc t) super_c); reflexivity.
Qed.

Lemma untouched_vertex (t : triangle) (v : point) :
  touches_super t = false -> In v (vertices t) -> touch v = false.
Proof.
  rewrite touches_super_touch. intros H Hv.
  apply orb_false_elim in H as [H Hc]. apply orb_false_elim in H as [Ha Hb].
  simpl in Hv. destruct Hv as [<- | [<- | [<- | []]]]; assumption.
Qed.

(** Every vertex of the triangulation, at any time, is a symbolic vertex or
    an input point; the final filter leaves the input points only. *)
Lemma triangulate_vertices (points : list point) (t : triangle) (v : point) :
  In t (triangulate points) -> In v (vertices t) ->
  In v points /\ touch v = false.
Proof.
  unfold triangulate. intros Ht Hv.
  apply filter_In in Ht as [Ht Hts]. apply negb_true_iff in Hts.
  pose proof (untouched_vertex t v Hts Hv) as Hnt.
  split; [|exact Hnt].
  assert (Hall : all_vertices (fun v => symbolic v \/ In v points)
                   (fold_left insert_point points [super_triangle])).
  { apply fold_insert_vertices.
    - intros t0 [<- | []] v0 Hv0. left. unfold symbolic.
      simpl in Hv0. destruct Hv0 as [<- | [<- | [<- | []]]]; auto.
    - auto. }
  destruct (Hall t Ht v Hv) as [Hs | Hin]; [|exact Hin].
  rewrite (symbolic_touch v Hs) in Hnt. discriminate.
Qed.

(** C4.  Every vertex of every triangle returned by [triangulate] is one of
    the input points, and it is not a vertex of the super-triangle: it is
    none of the three symbolic points and [operator==] tells it apart from
    each of them. *)
Theorem triangulate_vertex_closure
  (points : list point) (t : triangle) (v : point) :
  In t (triangulate points) -> In v (vertices t) ->
  In v points
  /\ ~ symbolic v
  /\ point_eq v super_a = false
  /\ point_eq v super_b = false
  /\ point_eq v super_c = false.
Proof.
  intros Ht Hv. destruct (triangulate_vertices points t v Ht Hv) as [Hin Hnt].
  split; [exact Hin|]. split.
  - intros Hs. rewrite (symbolic_touch v Hs) in Hnt. discriminate.
  - unfold touch in Hnt.
    apply orb_false_elim in Hnt as [Hnt Hc]. apply orb_false_elim in Hnt as [Ha Hb].
    auto.
Qed.

End Driver.

(** * Short inputs *)

Section ShortInputs.

Lemma b2n_le_1 (b : bool) : (b2n b <= 1)%nat.
Proof. destruct b; simpl; lia. Qed.

Lemma nsup_super_triangle : nsup super_triangle = 3%nat.
Proof. reflexivity. Qed.

(** An insertion step lowers the number of super-triangle vertices of a
    triangle by at most one: the new triangle keeps two stored vertices of
    an old one. *)
Lemma insert_point_nsup (triangulation : list triangle) (p : point) (k : nat) :
  (forall t, In t triangulation -> (3 <= nsup t + k)%nat) ->
  forall t, In t (insert_point triangulation p) -> (3 <= nsup t + S k)%nat.
Proof.
  intros Hall t Ht.
  apply insert_point_inv in Ht as [Ht | (t0 & e & Ht0 & He & ->)].
  - specialize (Hall t Ht). lia.
  - specialize (Hall t0 Ht0). unfold nsup in *. cbn [ta tb tc].
    pose proof (b2n_le_1 (touch (ta t0))).
    pose proof (b2n_le_1 (touch (tb t0))).
    pose proof (b2n_le_1 (touch (tc t0))).
    unfold edges in He. simpl in He.
    destruct He as [<- | [<- | [<- | []]]]; cbn [ea eb]; lia.
Qed.

Lemma fold_insert_nsup (points : list point) :
  forall triangulation k,
    (forall t, In t triangulation -> (3 <= nsup t + k)%nat) ->
    forall t, In t (fold_left insert_point points triangulation) ->
              (3 <= nsup t + (k + length points))%nat.
Proof.
  induction points as [|p points IH]; simpl; intros tri k Hall t Ht.
  - specialize (Hall t Ht). lia.
  - replace (k + S (length points))%nat with (S k + length points)%nat by lia.
    apply (IH (insert_point tri p) (S k)); [|exact Ht].
    apply insert_point_nsup. exact Hall.
Qed.

Lemma nsup_touches_super (t : triangle) :
  (1 <= nsup t)%nat -> touches_super t = true.
Proof.
  rewrite touches_super_touch. unfold nsup.
  destruct (touch (ta t)), (touch (tb t)), (touch (tc t)); simpl; try reflexivity; lia.
Qed.

Lemma filter_nil {A : Type} (f : A -> bool) (l : list A) :
  (forall a, In a l -> f a = false) -> filter f l = [].
Proof.
  induction l as [|a l IH]; simpl; intros H; [reflexivity|].
  rewrite (H a (or_introl eq_refl)). apply IH. auto.
Qed.

(** With fewer than three input points every triangle of the triangulation
    still has a vertex of the super-triangle, and the final filter removes
    it: the result is empty. *)
Lemma triangulate_lt3_empty (points : list point) :
  (length points < 3)%nat -> triangulate points = [].
Proof.
  intros Hlen. unfold triangulate. apply filter_nil. intros t Ht.
  apply negb_false_iff, nsup_touches_super.
  assert (H : (3 <= nsup t + (0 + length points))%nat).
  { apply (fold_insert_nsup points [super_triangle] 0); [|exact Ht].
    intros t0 [<- | []]. rewrite nsup_super_triangle. lia. }
  lia.
Qed.

Lemma triangulate_lt3_empty_witness :
  triangulate [mkpoint 0 0; mkpoint 1 1] = [].
Proof. apply triangulate_lt3_empty. simpl. lia. Defined.

End ShortInputs.

(** * Evaluation on concrete inputs *)

Section Evaluation.

(** The embedding agrees with the five assertions of the repository's
    collinearity tests. *)
Lemma repository_tests :
  length (triangulate near_collinear_1) = 1%nat
  /\ length (triangulate near_collinear_2) = 1%nat
  /\ length (triangulate near_collinear_3) = 1%nat
  /\ length (triangulate horizontal_line) = 0%nat
  /\ length (triangulate vertical_line) = 0%nat.
Proof. repeat split; vm_compute; reflexivity. Qed.

(** C3 on [tiny_points] and on [slanted_points]: [triangulate] returns a
    triangle that [triangle::valid] rejects.  On [tiny_points] the triangle
    has area 2^-61, below epsilon; its circumcircle is then the sentinel,
    which contains the three input points, and the check of the
    repository's tests fails.  On [slanted_points] the triangle has area
    zero. *)
Theorem triangulate_returns_degenerate :
  forallb finite tiny_points = true
  /\ triangulate tiny_points = [tiny_triangle]
  /\ area tiny_triangle = 0x1p-61
  /\ valid tiny_triangle = false
  /\ circumcircle tiny_triangle = sentinel
  /\ forallb (contains (circumcircle tiny_triangle)) tiny_points = true
  /\ valid_triangulation tiny_points = false
  /\ forallb finite slanted_points = true
  /\ triangulate slanted_points = [slanted_triangle]
  /\ area slanted_triangle = 0
  /\ valid slanted_triangle = false.
Proof. repeat split; vm_compute; reflexivity. Qed.

(** An input point given twice can come back as a triangle that stores it
    twice. *)
Lemma triangulate_repeated_point :
  triangulate [mkpoint 1 0; mkpoint 4 1; mkpoint 4 1]
  = [mktriangle (mkpoint 1 0) (mkpoint 4 1) (mkpoint 4 1)].
Proof. vm_compute. reflexivity. Qed.

(** For finite input points, every triangle returned by [triangulate] has
    three finite vertices and no vertex equal to a super-triangle vertex. *)
Lemma triangulate_finite_vertices (points : list point) (t : triangle) :
  (forall p, In p points -> finite p = true) ->
  In t (triangulate points) ->
  finite (ta t) = true /\ finite (tb t) = true /\ finite (tc t) = true
  /\ touches_super t = false.
Proof.
  intros Hfin Ht.
  assert (Hv : forall v, In v (vertices t) -> finite v = true).
  { intros v Hv. apply Hfin. exact (proj1 (triangulate_vertices points t v Ht Hv)). }
  repeat split; try (apply Hv; simpl; auto).
  unfold triangulate in Ht. apply filter_In in Ht as [_ Ht].
  now apply negb_true_iff.
Qed.

Lemma triangulate_finite_vertices_witness :
  finite (ta tiny_triangle) = true /\ finite (tb tiny_triangle) = true
  /\ finite (tc tiny_triangle) = true /\ touches_super tiny_triangle = false.
Proof.
  apply (triangulate_finite_vertices tiny_points tiny_triangle).
  - intros p [<- | [<- | [<- | []]]]; reflexivity.
  - vm_compute. left. reflexivity.
Defined.

Lemma triangulate_vertex_closure_witness :
  In (mkpoint 1 0) unit_points /\ point_eq (mkpoint 1 0) super_c = false.
Proof.
  destruct (triangulate_vertex_closure unit_points unit_triangle (mkpoint 1 0))
    as (H1 & _ & _ & _ & H2).
  - vm_compute. left. reflexivity.
  - simpl. right. left. reflexivity.
  - split; assumption.
Defined.

Lemma halfplane_contains_cases_witness :
  halfplane_contains (mktriangle super_b (mkpoint 0 0) super_c) (mkpoint 1 1)
  = true.
Proof.
  apply (halfplane_contains_cases (mkpoint 1 1)
           (mktriangle super_b (mkpoint 0 0) super_c) true).
  apply (case_one_finite_bc (mkpoint 1 1) (mkpoint 0 0)).
  - reflexivity.
  - right. right. left. reflexivity.
Defined.

Lemma halfplane_contains_needs_infinite_witness :
  circumcircle flat_triangle = sentinel
  /\ halfplane_contains flat_triangle (mkpoint 1 0) = false.
Proof.
  split; [reflexivity|].
  apply (proj1 (halfplane_contains_needs_infinite flat_triangle (mkpoint 1 0))).
  reflexivity.
Defined.

(** The half-plane test on a triangle with a vertical finite edge: the
    slope is [+inf], the intercept [v1.y - m * v1.x] is [0 - inf * 0], a
    NaN, and no point is reported.  The triangle with the vertices
    (+inf, 0), (0, 0), (0, 1) is in the triangulation once (0, 0) and (0, 1)
    are inserted, and none of the points (1, 0), (1, 1), (2, 0), all on the
    side x > 0 of its finite edge, flags it. *)
Lemma halfplane_vertical_edge :
  let t := mktriangle super_c (mkpoint 0 0) (mkpoint 0 1) in
  slope (mkpoint 0 0) (mkpoint 0 1) = inf
  /\ is_nan (0 - slope (mkpoint 0 0) (mkpoint 0 1) * 0) = true
  /\ In t (fold_left insert_point [mkpoint 0 0; mkpoint 0 1] [super_triangle])
  /\ is_bad (mkpoint 1 0) t = false
  /\ is_bad (mkpoint 1 1) t = false
  /\ is_bad (mkpoint 2 0) t = false.
Proof.
  repeat split; try reflexivity.
  vm_compute. do 4 right. left. reflexivity.
Qed.

(** The half-plane test on the two triangles over the edge from (1, 0) to
    (4, 1) when the collinear point (7, 2) is inserted: the slope is the
    double nearest to 1/3, and [2 - m * 7] rounds to a value above the
    intercept [0 - m * 1], so that the triangle on the side of (0, +inf) is
    flagged and the one on the side of (+inf, 0) is not. *)
Lemma halfplane_slanted_edge :
  let m := slope (mkpoint 1 0) (mkpoint 4 1) in
  m = 0x1.5555555555555p-2
  /\ (0 - m * 1 <? 2 - m * 7) = true
  /\ is_bad (mkpoint 7 2) (mktriangle super_b (mkpoint 1 0) (mkpoint 4 1)) = true
  /\ is_bad (mkpoint 7 2) (mktriangle super_c (mkpoint 1 0) (mkpoint 4 1)) = false.
Proof. repeat split; reflexivity. Qed.

(** C1 on [shielded_points]: the only triangle returned is valid, its
    circumcircle has centre (0.5, -0.5) and squared radius 2.5, and it
    contains the input point (0, 0). *)
Theorem triangulate_not_delaunay :
  forallb finite shielded_points = true
  /\ triangulate shielded_points = [shielded_triangle]
  /\ valid shielded_triangle = true
  /\ circumcircle shielded_triangle = mkcircle (mkpoint 0.5 (-0.5)) 2.5
  /\ In (mkpoint 0 0) shielded_points
  /\ contains (circumcircle shielded_triangle) (mkpoint 0 0) = true.
Proof.
  repeat split; try (vm_compute; reflexivity). simpl. left. reflexivity.
Qed.

(** C5 on [slanted_points]: three collinear points, whose area is computed
    as exactly zero, are returned as one triangle. *)
Theorem triangulate_collinear_nonempty :
  forallb finite slanted_points = true
  /\ area slanted_triangle = 0
  /\ triangulate slanted_points = [slanted_triangle].
Proof. repeat split; vm_compute; reflexivity. Qed.

(** C8 on [upright_points]: three finite points of signed area -0.5 yield
    no triangle. *)
Theorem triangulate_triple_empty :
  forallb finite upright_points = true
  /\ area upright_triangle = -0.5
  /\ triangulate upright_points = [].
Proof. repeat split; vm_compute; reflexivity. Qed.

End Evaluation.

(** * Further properties of the geometric primitives *)

Section PrimitiveProperties.

Import FloatFacts.

(** [point::midpoint] does not depend on the order of its arguments. *)
Theorem midpoint_comm (a b : point) : midpoint a b = midpoint b a.
Proof.
  unfold midpoint. rewrite (add_comm (x a) (x b)), (add_comm (y a) (y b)).
  reflexivity.
Qed.

(** [point::distance_squared] does not depend on which of the two points
    is the receiver. *)
Theorem distance_squared_sym (p a : point) :
  distance_squared p a = distance_squared a p.
Proof.
  unfold distance_squared. cbn zeta.
  rewrite (sq_sub_sym (x p) (x a)), (sq_sub_sym (y p) (y a)). reflexivity.
Qed.

Lemma distance_squared_nonneg (p a : point) :
  SFnonneg (Prim2SF (distance_squared p a)) = true.
Proof. unfold distance_squared. cbn zeta. apply sq_sum_nonneg. Qed.

(** [circle::contains] answers [false] for every point when the radius is
    zero, negative or NaN: a squared distance is never below such a
    radius. *)
Theorem contains_needs_positive_radius (c : circle) (p : point) :
  (0 <? radius c) = false -> contains c p = false.
Proof.
  intros H. rewrite contains_distance.
  apply nonneg_not_below; [apply distance_squared_nonneg | exact H].
Qed.

Lemma contains_needs_positive_radius_witness :
  contains (mkcircle (mkpoint 1 1) 0) (mkpoint 1 1) = false.
Proof. apply contains_needs_positive_radius. reflexivity. Defined.

(** The radius stored by [triangle::circumcircle] is never negative: it is
    [+inf] for an invalid triangle and a squared distance otherwise. *)
Theorem circumcircle_radius_not_negative (t : triangle) :
  (radius (circumcircle t) <? 0) = false.
Proof.
  destruct (valid t) eqn:Hv.
  - rewrite (circumcircle_valid t Hv). cbn [radius].
    destruct (fmin3_cases (distance_squared (ta t) (circumcenter t))
                          (distance_squared (tb t) (circumcenter t))
                          (distance_squared (tc t) (circumcenter t)))
      as [-> | [-> | ->]];
      (apply nonneg_not_below; [apply distance_squared_nonneg | reflexivity]).
  - rewrite (circumcircle_invalid t Hv). reflexivity.
Qed.

(** The squared distance of a point to itself is [+0] when its coordinates
    are finite numbers, so a circle with such a centre contains its centre
    exactly when its radius is positive. *)
Theorem contains_center (c : circle) :
  finite (center c) = true -> no_nan (center c) = true ->
  distance_squared (center c) (center c) = 0
  /\ contains c (center c) = (0 <? radius c).
Proof.
  unfold finite, neqb, no_nan. intros Hf Hn.
  apply andb_prop in Hf as [Hfx Hfy]. apply andb_prop in Hn as [Hnx Hny].
  apply negb_true_iff in Hfx, Hfy, Hnx, Hny.
  assert (Hd : distance_squared (center c) (center c) = 0).
  { unfold distance_squared. cbn zeta.
    rewrite (sub_self_zero _ Hnx Hfx), (sub_self_zero _ Hny Hfy). reflexivity. }
  split; [exact Hd|]. rewrite contains_distance, Hd. reflexivity.
Qed.

Lemma contains_center_witness :
  contains (mkcircle (mkpoint 1 2) 0.5) (mkpoint 1 2) = true.
Proof.
  exact (proj2 (contains_center (mkcircle (mkpoint 1 2) 0.5) eq_refl eq_refl)).
Defined.

(** [point::slope] has the same magnitude for both orders of its
    arguments. *)
Theorem slope_magnitude_sym (a b : point) : abs (slope a b) = abs (slope b a).
Proof.
  unfold slope.
  rewrite (eqb_zero_abs (x a - x b) (x b - x a) (abs_sub_sym (x a) (x b))).
  destruct (x b - x a =? 0); [reflexivity|].
  apply abs_div_abs2; apply abs_sub_sym.
Qed.

(** [point::finite] is false exactly when a coordinate is [+inf] or [-inf];
    in particular a NaN coordinate counts as finite. *)
Theorem finite_iff (p : point) :
  finite p = false <->
  x p = infinity \/ x p = neg_infinity \/ y p = infinity \/ y p = neg_infinity.
Proof.
  unfold finite, neqb. rewrite andb_false_iff, !negb_false_iff, !abs_eqb_inf.
  tauto.
Qed.

Lemma point_eq_apart (p q : point) :
  finite p = true -> finite q = false -> point_eq p q = false.
Proof.
  unfold finite, neqb, point_eq. intros Hp Hq.
  apply andb_prop in Hp as [Hpx Hpy].
  apply negb_true_iff in Hpx, Hpy.
  apply andb_false_iff in Hq as [Hq | Hq]; apply negb_false_iff in Hq.
  - destruct (far_from_infinite _ _ Hpx Hq) as [-> ->]. reflexivity.
  - destruct (far_from_infinite _ _ Hpy Hq) as [-> ->].
    rewrite !andb_false_r. reflexivity.
Qed.

(** [point::operator==] never identifies a finite point with a point that
    has an infinite coordinate: the exact comparison fails and the distance
    on that axis is infinite or NaN, above the tolerance. *)
Theorem point_eq_finite_infinite (p q : point) :
  finite p = true -> finite q = false -> point_eq p q = false.
Proof. intros Hp Hq. exact (point_eq_apart p q Hp Hq). Qed.

Lemma point_eq_finite_infinite_witness :
  point_eq (mkpoint 0 0x1p1023) super_b = false.
Proof. apply point_eq_finite_infinite; reflexivity. Defined.

(** [triangle::valid] rejects every triangle that stores the same point
    twice: the area it computes is then a zero or NaN. *)
Theorem valid_rejects_repeated_vertex (t : triangle) :
  ta t = tb t \/ ta t = tc t \/ tb t = tc t -> valid t = false.
Proof.
  intros H. unfold valid.
  destruct (negb (finite (ta t)) || negb (finite (tb t)) || negb (finite (tc t)));
    [reflexivity|].
  unfold gtb. apply zn_not_above_epsilon, zn_half. unfold area.
  destruct H as [H | [H | H]]; rewrite H.
  - apply zn_sub; [apply zn_mul_l | apply zn_mul_r]; apply zn_sub_self.
  - apply zn_sub; [apply zn_mul_r | apply zn_mul_l]; apply zn_sub_self.
  - apply zn_sub_self.
Qed.

Lemma valid_rejects_repeated_vertex_witness :
  valid (mktriangle (mkpoint 1 2) (mkpoint 5 7) (mkpoint 1 2)) = false.
Proof. apply valid_rejects_repeated_vertex. right. left. reflexivity. Defined.

(** [triangle::valid] does not depend on the orientation of the triangle:
    exchanging the vertices [b] and [c] exchanges the two products of the
    area formula and leaves its absolute value unchanged. *)
Theorem valid_swap (a b c : point) :
  valid (mktriangle a b c) = valid (mktriangle a c b).
Proof.
  unfold valid, area. cbn [ta tb tc].
  rewrite (abs_div_abs _ _ 2 (abs_sub_sym ((x b - x a) * (y c - y a))
                                           ((x c - x a) * (y b - y a)))).
  destruct (finite a), (finite b), (finite c); reflexivity.
Qed.

(** [triangle::has_edge] is undirected, and a triangle without NaN
    coordinates has each of its own edges, in both directions. *)
Theorem has_edge_undirected_own :
  (forall t a b, has_edge t (mkedge a b) = has_edge t (mkedge b a))
  /\ (forall t e,
         no_nan (ta t) = true -> no_nan (tb t) = true -> no_nan (tc t) = true ->
         In e (edges t) ->
         has_edge t e = true /\ has_edge t (mkedge (eb e) (ea e)) = true).
Proof.
  split.
  - intros t a b. unfold has_edge, edges. cbn [existsb ea eb].
    rewrite !(orb_comm (point_eq _ a && point_eq _ b)). reflexivity.
  - intros t e Ha Hb Hc He. unfold no_nan in Ha, Hb, Hc.
    rewrite <- point_eq_refl_iff in Ha, Hb, Hc.
    unfold has_edge, edges in *. cbn [existsb ea eb].
    destruct He as [<- | [<- | [<- | []]]]; cbn [ea eb];
      rewrite ?Ha, ?Hb, ?Hc; cbn [andb orb];
      rewrite ?orb_true_r; split; reflexivity.
Qed.

(** [triangle::operator==] is symmetric, and a triangle equals itself
    exactly when none of its coordinates is NaN. *)
Theorem triangle_eq_relation :
  (forall t u, triangle_eq t u = triangle_eq u t)
  /\ (forall t, triangle_eq t t = no_nan (ta t) && no_nan (tb t) && no_nan (tc t)).
Proof.
  split.
  - intros t u. unfold triangle_eq.
    rewrite (point_eq_sym (ta t)), (point_eq_sym (tb t)), (point_eq_sym (tc t)).
    reflexivity.
  - intros t. unfold triangle_eq, no_nan. rewrite !point_eq_refl_iff. reflexivity.
Qed.

End PrimitiveProperties.

(** * Further properties of the half-plane test and the driver *)

Section DriverProperties.

Import FloatFacts.

(** A triangle whose three vertices are finite is flagged by the circle
    test only: the half-plane test never contributes, so a degenerate
    triangle with finite vertices, or one whose radius overflowed, is
    never flagged. *)
Theorem is_bad_all_finite (p : point) (t : triangle) :
  all_finite t = true ->
  is_bad p t
  = valid t && negb (infinite (circumcircle t)) && contains (circumcircle t) p.
Proof.
  unfold all_finite. intros H.
  apply andb_prop in H as [H Hc]. apply andb_prop in H as [Ha Hb].
  unfold is_bad. destruct (valid t) eqn:Hv.
  - destruct (infinite (circumcircle t)); cbn [negb andb]; [|reflexivity].
    now apply halfplane_all_finite.
  - rewrite (circumcircle_invalid t Hv). cbn. now apply halfplane_all_finite.
Qed.

Lemma is_bad_all_finite_witness :
  is_bad (mkpoint 1 0) flat_triangle = false.
Proof. exact (is_bad_all_finite (mkpoint 1 0) flat_triangle eq_refl). Defined.

(** The half-plane test never reports a triangle for its own finite vertex
    when that vertex is the only finite one, nor for the finite vertex the
    source names [v1] when two vertices are finite: both sides of the
    strict comparison are then the same double. *)
Theorem halfplane_own_vertex (t : triangle) :
  ((b2n (finite (ta t)) + b2n (finite (tb t)) + b2n (finite (tc t)) = 1)%nat ->
   forall f, In f (vertices t) -> finite f = true ->
             halfplane_contains t f = false)
  /\ (forall f v1 v2,
         around t f v1 v2 ->
         finite f = false -> finite v1 = true -> finite v2 = true ->
         halfplane_contains t v1 = false).
Proof.
  split.
  - destruct t as [a b c]. unfold vertices. cbn [ta tb tc].
    intros Hsum f Hf Hfin. unfold halfplane_contains. cbn [ta tb tc].
    destruct (finite a) eqn:Ha, (finite b) eqn:Hb, (finite c) eqn:Hc;
      cbn in Hsum; try discriminate Hsum;
      destruct Hf as [<- | [<- | [<- | []]]]; try congruence; cbn;
      repeat match goal with
             | |- context [if ?c then _ else _] => destruct c
             end;
      unfold gtb; apply ltb_irrefl.
  - intros f v1 v2 Ht Hf H1 H2. unfold halfplane_contains.
    destruct Ht as [-> | [-> | ->]]; cbn [ta tb tc];
      rewrite Hf, H1, H2; cbn;
      repeat match goal with
             | |- context [if ?c then _ else _] => destruct c
             end;
      unfold gtb; apply ltb_irrefl.
Qed.

Lemma halfplane_own_vertex_witness :
  halfplane_contains (mktriangle super_b (mkpoint 1 0) (mkpoint 4 1))
    (mkpoint 1 0) = false.
Proof.
  apply (proj2 (halfplane_own_vertex
                  (mktriangle super_b (mkpoint 1 0) (mkpoint 4 1)))
           super_b (mkpoint 1 0) (mkpoint 4 1)); try reflexivity.
  left. reflexivity.
Defined.

(** The other finite vertex is not protected in the same way: the vertex
    the source names [v2] is compared through a differently rounded
    expression, and a triangle can be reported for it. *)
Lemma halfplane_second_vertex_reported :
  halfplane_contains (mktriangle super_b (mkpoint 1 0) (mkpoint 4 1))
    (mkpoint 4 1) = true.
Proof. reflexivity. Qed.

Lemma triangle_eq_refl (t : triangle) :
  no_nan (ta t) && no_nan (tb t) && no_nan (tc t) = true ->
  triangle_eq t t = true.
Proof.
  unfold triangle_eq, no_nan. rewrite !point_eq_refl_iff. auto.
Qed.

(** What an insertion step leaves in the triangulation: a triangle that was
    there and, unless it has a NaN coordinate, is not flagged by the
    inserted point; or a triangle made of an edge of a flagged triangle and
    the inserted point. *)
Theorem insert_point_step (triangulation : list triangle) (p : point) (t : triangle) :
  In t (insert_point triangulation p) ->
  (In t triangulation
   /\ (no_nan (ta t) && no_nan (tb t) && no_nan (tc t) = true ->
       is_bad p t = false))
  \/ (exists t0 e,
         In t0 triangulation /\ is_bad p t0 = true /\ In e (edges t0)
         /\ t = mktriangle (ea e) (eb e) p).
Proof.
  unfold insert_point. intros H. apply in_app_or in H as [H | H].
  - left. apply filter_In in H as [Ht Hk]. split; [exact Ht|].
    intros Hn. destruct (is_bad p t) eqn:Hb; [|reflexivity].
    apply negb_true_iff in Hk.
    assert (Hin : in_bad_set (filter (is_bad p) triangulation) t = true).
    { unfold in_bad_set. apply existsb_exists. exists t. split.
      - apply filter_In. auto.
      - now apply triangle_eq_refl. }
    congruence.
  - right. apply in_map_iff in H as [e [<- He]].
    apply polygon_of_edges in He as [t0 [Ht0 He]].
    apply filter_In in Ht0 as [Ht0 Hb].
    exists t0, e. auto.
Qed.

Lemma insert_point_step_witness :
  (In unit_triangle [unit_triangle]
   /\ (no_nan (ta unit_triangle) && no_nan (tb unit_triangle)
       && no_nan (tc unit_triangle) = true ->
       is_bad (mkpoint 5 5) unit_triangle = false))
  \/ (exists t0 e,
         In t0 [unit_triangle] /\ is_bad (mkpoint 5 5) t0 = true
         /\ In e (edges t0)
         /\ unit_triangle = mktriangle (ea e) (eb e) (mkpoint 5 5)).
Proof.
  apply (insert_point_step [unit_triangle] (mkpoint 5 5) unit_triangle).
  vm_compute. left. reflexivity.
Defined.

Lemma insert_point_unflagged (triangulation : list triangle) (p : point) :
  (forall t, In t triangulation -> is_bad p t = false) ->
  insert_point triangulation p = triangulation.
Proof.
  intros H. unfold insert_point.
  rewrite (filter_nil (is_bad p) triangulation H).
  cbn [polygon_of indexed indexed_from flat_map map]. rewrite app_nil_r.
  clear H. induction triangulation as [|t l IH]; [reflexivity|].
  cbn. f_equal. exact IH.
Qed.

(** A point that flags no triangle leaves the triangulation unchanged: it
    is dropped, and no triangle will have it as a vertex. *)
Theorem insert_point_no_bad (triangulation : list triangle) (p : point) :
  (forall t, In t triangulation -> is_bad p t = false) ->
  insert_point triangulation p = triangulation.
Proof. intros H. now apply insert_point_unflagged. Qed.

Lemma insert_point_no_bad_witness :
  insert_point [flat_triangle; unit_triangle] (mkpoint 5 5)
  = [flat_triangle; unit_triangle].
Proof.
  apply insert_point_no_bad.
  intros t [<- | [<- | []]]; reflexivity.
Defined.

Lemma is_bad_first_fan (p u v : point) :
  finite p = true -> finite u = false -> finite v = false ->
  is_bad p (mktriangle u v p) = false.
Proof.
  intros Hp Hu Hv. unfold is_bad.
  assert (Hval : valid (mktriangle u v p) = false).
  { unfold valid. cbn [ta tb tc]. rewrite Hu. reflexivity. }
  rewrite (circumcircle_invalid _ Hval). cbn [negb infinite radius sentinel].
  change (inf =? inf) with true. cbn iota.
  unfold halfplane_contains. cbn [ta tb tc]. rewrite Hp, Hu, Hv. cbn.
  repeat match goal with
         | |- context [if ?c then _ else _] => destruct c
         end;
    unfold gtb; apply ltb_irrefl.
Qed.

(** Whatever the first input point is, its insertion flags the
    super-triangle and replaces it by the three triangles that join the
    point to the edges of the super-triangle; inserting the same finite
    point once more changes nothing. *)
Theorem insert_first_point (p : point) :
  insert_point [super_triangle] p
  = [mktriangle super_a super_b p; mktriangle super_b super_c p;
     mktriangle super_a super_c p]
  /\ (finite p = true ->
      insert_point (insert_point [super_triangle] p) p
      = insert_point [super_triangle] p).
Proof.
  assert (H : insert_point [super_triangle] p
              = [mktriangle super_a super_b p; mktriangle super_b super_c p;
                 mktriangle super_a super_c p]) by reflexivity.
  split; [exact H|]. intros Hp. rewrite H.
  apply insert_point_unflagged.
  intros t [<- | [<- | [<- | []]]]; now apply is_bad_first_fan.
Qed.

Lemma insert_first_point_witness :
  insert_point (insert_point [super_triangle] (mkpoint 3 4)) (mkpoint 3 4)
  = insert_point [super_triangle] (mkpoint 3 4).
Proof. exact (proj2 (insert_first_point (mkpoint 3 4)) eq_refl). Defined.

Lemma touch_finite (v : point) : finite v = true -> touch v = false.
Proof.
  intros H. unfold touch.
  rewrite (point_eq_apart v super_a H finite_super_a),
    (point_eq_apart v super_b H finite_super_b),
    (point_eq_apart v super_c H finite_super_c).
  reflexivity.
Qed.

Lemma touch_symbolic_or_finite (v : point) :
  symbolic v \/ finite v = true -> touch v = negb (finite v).
Proof.
  intros [H | H].
  - rewrite (symbolic_touch v H), (symbolic_not_finite v H). reflexivity.
  - rewrite (touch_finite v H), H. reflexivity.
Qed.

(** On finite input the final filter removes exactly the triangles that
    still have an infinite vertex: the tolerance of [point::operator==]
    never makes it remove a triangle of three input points. *)
Theorem triangulate_filter_finite (points : list point) :
  (forall p, In p points -> finite p = true) ->
  triangulate points
  = filter all_finite (fold_left insert_point points [super_triangle]).
Proof.
  intros Hfin. unfold triangulate. apply filter_ext_in. intros t Ht.
  assert (Hall : all_vertices (fun v => symbolic v \/ finite v = true)
                   (fold_left insert_point points [super_triangle])).
  { apply fold_insert_vertices.
    - intros t0 [<- | []] v0 Hv0. left. unfold symbolic.
      simpl in Hv0. destruct Hv0 as [<- | [<- | [<- | []]]]; auto.
    - auto. }
  rewrite touches_super_touch. unfold all_finite.
  rewrite (touch_symbolic_or_finite (ta t)), (touch_symbolic_or_finite (tb t)),
    (touch_symbolic_or_finite (tc t))
    by (apply (Hall t Ht); simpl; auto).
  destruct (finite (ta t)), (finite (tb t)), (finite (tc t)); reflexivity.
Qed.

Lemma triangulate_filter_finite_witness :
  triangulate unit_points
  = filter all_finite (fold_left insert_point unit_points [super_triangle]).
Proof.
  apply triangulate_filter_finite.
  intros p [<- | [<- | [<- | []]]]; reflexivity.
Defined.

Lemma created_vertices (done : list point) (t : triangle) (v : point) :
  created done t -> In v (vertices t) -> symbolic v \/ In v done.
Proof.
  intros [(Ha & Hb & Hc) | (l1 & l2 & -> & Ha & Hb)] Hv;
    simpl in Hv; destruct Hv as [<- | [<- | [<- | []]]]; auto.
  - destruct Ha as [Ha | Ha]; [now left | right; apply in_or_app; now left].
  - destruct Hb as [Hb | Hb]; [now left | right; apply in_or_app; now left].
  - right. apply in_or_app. right. now left.
Qed.

Lemma created_later (done : list point) (p : point) (t : triangle) :
  created done t -> created (done ++ [p]) t.
Proof.
  intros [H | (l1 & l2 & -> & Ha & Hb)]; [now left | right].
  exists l1, (l2 ++ [p]). rewrite <- app_assoc. auto.
Qed.

Lemma insert_point_created
  (done : list point) (triangulation : list triangle) (p : point) :
  (forall t, In t triangulation -> created done t) ->
  forall t, In t (insert_point triangulation p) -> created (done ++ [p]) t.
Proof.
  intros Hall t Ht.
  apply insert_point_inv in Ht as [Ht | (t0 & e & Ht0 & He & ->)].
  - apply created_later, Hall, Ht.
  - right. exists done, []. cbn [ta tb tc].
    destruct (in_edges_vertices t0 e He) as [Ha Hb].
    repeat split; eapply created_vertices; eauto.
Qed.

Lemma fold_insert_created (points : list point) :
  forall done triangulation,
    (forall t, In t triangulation -> created done t) ->
    forall t, In t (fold_left insert_point points triangulation) ->
              created (done ++ points) t.
Proof.
  induction points as [|p points IH]; simpl; intros done tri Hall t Ht.
  - rewrite app_nil_r. auto.
  - replace (done ++ p :: points) with ((done ++ [p]) ++ points)
      by (rewrite <- app_assoc; reflexivity).
    apply (IH (done ++ [p]) (insert_point tri p)); [|exact Ht].
    apply insert_point_created. exact Hall.
Qed.

(** In every triangle returned by [triangulate], the third stored vertex is
    the input point whose insertion created the triangle, and the first two
    stored vertices are input points that come before it in the input
    sequence. *)
Theorem triangulate_third_vertex_last (points : list point) (t : triangle) :
  In t (triangulate points) ->
  exists l1 l2,
    points = l1 ++ tc t :: l2 /\ In (ta t) l1 /\ In (tb t) l1.
Proof.
  unfold triangulate. intros Ht.
  apply filter_In in Ht as [Ht Hts]. apply negb_true_iff in Hts.
  assert (Hc : created ([] ++ points) t).
  { apply (fold_insert_created points [] [super_triangle]); [|exact Ht].
    intros t0 [<- | []]. left. unfold symbolic. cbn. auto. }
  assert (Hns : forall v, In v (vertices t) -> ~ symbolic v).
  { intros v Hv Hs.
    pose proof (symbolic_touch v Hs) as Hst.
    rewrite (untouched_vertex t v Hts Hv) in Hst. discriminate. }
  destruct Hc as [(Ha & _) | (l1 & l2 & Heq & Ha & Hb)].
  - exfalso. apply (Hns (ta t)); simpl; auto.
  - exists l1, l2. split; [exact Heq|]. split.
    + destruct Ha as [Ha | Ha]; [|exact Ha].
      exfalso. apply (Hns (ta t)); simpl; auto.
    + destruct Hb as [Hb | Hb]; [|exact Hb].
      exfalso. apply (Hns (tb t)); simpl; auto.
Qed.

Lemma triangulate_third_vertex_last_witness :
  exists l1 l2,
    unit_points = l1 ++ mkpoint 0 1 :: l2
    /\ In (mkpoint 0 0) l1 /\ In (mkpoint 1 0) l1.
Proof.
  apply (triangulate_third_vertex_last unit_points unit_triangle).
  vm_compute. left. reflexivity.
Defined.

End DriverProperties.

(** * Unusual input points *)

Section UnusualPoints.

Import FloatFacts.

Create HintDb nanprop.

#[local] Hint Resolve nan_add_l nan_add_r nan_sub_l nan_sub_r nan_mul_l
  nan_mul_r nan_div_l : nanprop.

Lemma no_nan_false (p : point) :
  no_nan p = false -> is_nan (x p) = true \/ is_nan (y p) = true.
Proof.
  unfold no_nan. intros H. apply andb_false_iff in H as [H | H];
    apply negb_false_iff in H; auto.
Qed.

Lemma contains_nan_point (c : circle) (p : point) :
  no_nan p = false -> contains c p = false.
Proof.
  intros H. unfold contains. cbn zeta. apply nan_ltb_l.
  destruct (no_nan_false p H); auto with nanprop.
Qed.

Lemma halfplane_nan_point (t : triangle) (p : point) :
  no_nan p = false ->
  halfplane_contains t p
  = negb (finite (ta t)) && negb (finite (tb t)) && negb (finite (tc t)).
Proof.
  intros H. unfold halfplane_contains.
  destruct (finite (ta t)), (finite (tb t)), (finite (tc t)); cbn;
    try reflexivity;
    repeat match goal with
           | |- context [if ?c then _ else _] => destruct c
           end;
    unfold gtb;
    destruct (no_nan_false p H);
    first [ apply nan_ltb_l; solve [auto with nanprop]
          | apply nan_ltb_r; solve [auto with nanprop] ].
Qed.

Lemma valid_has_finite (t : triangle) :
  valid t = true -> finite (ta t) = true.
Proof.
  unfold valid. destruct (finite (ta t)); [reflexivity | discriminate].
Qed.

(** A query point with a NaN coordinate flags exactly the triangles that
    have no finite vertex: the circle test and every comparison of the
    half-plane test are false on NaN.  Such a point is therefore dropped
    when every triangle of the triangulation has a finite vertex, as is the
    case after any first point. *)
Theorem is_bad_nan_point (p : point) :
  no_nan p = false ->
  (forall t,
      is_bad p t
      = negb (finite (ta t)) && negb (finite (tb t)) && negb (finite (tc t)))
  /\ (forall triangulation,
         (forall t, In t triangulation ->
                    finite (ta t) || finite (tb t) || finite (tc t) = true) ->
         insert_point triangulation p = triangulation).
Proof.
  intros H.
  assert (Hbad : forall t,
             is_bad p t
             = negb (finite (ta t)) && negb (finite (tb t))
               && negb (finite (tc t))).
  { intros t. unfold is_bad.
    destruct (negb (infinite (circumcircle t))) eqn:Hi.
    - rewrite (contains_nan_point _ p H).
      destruct (valid t) eqn:Hv.
      + rewrite (valid_has_finite t Hv). reflexivity.
      + rewrite (circumcircle_invalid t Hv) in Hi. discriminate Hi.
    - now apply halfplane_nan_point. }
  split; [exact Hbad|].
  intros tri Hall. apply insert_point_unflagged. intros t Ht.
  rewrite (Hbad t). specialize (Hall t Ht).
  destruct (finite (ta t)), (finite (tb t)), (finite (tc t));
    try reflexivity; discriminate Hall.
Qed.

Lemma is_bad_nan_point_witness :
  is_bad (mkpoint nan 0) (mktriangle super_a super_b (mkpoint 0 0)) = false.
Proof.
  exact (proj1 (is_bad_nan_point (mkpoint nan 0) eq_refl)
           (mktriangle super_a super_b (mkpoint 0 0))).
Defined.

End UnusualPoints.
